(** * Polar Gosling MCP server: the dispatch layer of [MCP/server.py]

    A shallow embedding of the tool catalog [TOOLS], of the dispatch table
    [_DISPATCH], of the handlers [list_tools] and [call_tool], and of the
    data constants they serve, together with the part of Python's [json]
    package that [call_tool] relies on ([json.dumps] with [indent=2]) and
    its inverse ([json.loads]). *)

From Stdlib Require Import NArith ZArith List String Ascii Bool Lia.
From stdpp Require Import gmap list.

Import ListNotations.
Local Open Scope N_scope.

(** * Python values *)

(** A Python [str] is a sequence of Unicode code points. *)
Abbreviation pystr := (list N).

(** [u] reads an ASCII literal as a [str]. *)
Definition u (s : string) : pystr :=
  List.map N_of_ascii (list_ascii_of_string s).

Definition dq : pystr := [34].
Definition nl : pystr := [10].
Definition em_dash : pystr := [8212].
Definition rarrow : pystr := [8594].

(** The values the data modules are built from: [None], [bool], [int],
    [str], [list] and [dict] with [str] keys. A [dict] keeps its items in
    insertion order, which is the order [json.dumps] writes them in. *)
#[warnings="-register-all"]
Inductive value : Type :=
| VNone
| VBool (b : bool)
| VInt (z : Z)
| VStr (s : pystr)
| VList (l : list value)
| VDict (d : list (pystr * value)).

Definition str (s : string) : value := VStr (u s).

Section value_induction.
Variable P : value -> Prop.
Hypothesis HNone : P VNone.
Hypothesis HBool : forall b, P (VBool b).
Hypothesis HInt : forall z, P (VInt z).
Hypothesis HStr : forall s, P (VStr s).
Hypothesis HList : forall l, Forall P l -> P (VList l).
Hypothesis HDict : forall d, Forall (fun kv => P (snd kv)) d -> P (VDict d).

Fixpoint value_ind' (v : value) : P v :=
  match v with
  | VNone => HNone
  | VBool b => HBool b
  | VInt z => HInt z
  | VStr s => HStr s
  | VList l =>
      HList l ((fix go (l : list value) : Forall P l :=
                  match l with
                  | [] => List.Forall_nil P
                  | x :: xs => List.Forall_cons P x xs (value_ind' x) (go xs)
                  end) l)
  | VDict d =>
      HDict d ((fix go (d : list (pystr * value))
                  : Forall (fun kv => P (snd kv)) d :=
                  match d with
                  | [] => List.Forall_nil _
                  | kv :: xs =>
                      List.Forall_cons _ kv xs (value_ind' (snd kv)) (go xs)
                  end) d)
  end.
End value_induction.

(** * [json.dumps(obj, indent=2)]

    The encoder of CPython's [json.encoder] with its defaults:
    [ensure_ascii=True], [sort_keys=False], and, since [indent] is given,
    the separators [","] and [": "]. *)

Module Json.

(** ** Strings: [py_encode_basestring_ascii] *)

Definition hexdigit (d : N) : N :=
  if d <? 10 then 48 + d else 87 + d.

(** ['\\u{0:04x}'.format(n)] *)
Definition u_escape (n : N) : pystr :=
  [92; 117; hexdigit (n / 4096 mod 16); hexdigit (n / 256 mod 16);
   hexdigit (n / 16 mod 16); hexdigit (n mod 16)].

(** The replacement of one character matched by [ESCAPE_ASCII]; a
    character in [' '..'~'] other than the quote and the backslash is not
    matched and stays. *)
Definition escape_char (c : N) : pystr :=
  if c =? 34 then [92; 34]
  else if c =? 92 then [92; 92]
  else if c =? 8 then [92; 98]
  else if c =? 12 then [92; 102]
  else if c =? 10 then [92; 110]
  else if c =? 13 then [92; 114]
  else if c =? 9 then [92; 116]
  else if (32 <=? c) && (c <=? 126) then [c]
  else if c <? 65536 then u_escape c
  else
    let n := c - 65536 in
    let s1 := N.lor 55296 (N.land (N.shiftr n 10) 1023) in
    let s2 := N.lor 56320 (N.land n 1023) in
    u_escape s1 ++ u_escape s2.

Definition encode_basestring_ascii (s : pystr) : pystr :=
  34 :: flat_map escape_char s ++ [34].

(** ** Integers: [int.__repr__] *)

Fixpoint digits (fuel : nat) (n : N) (acc : pystr) : pystr :=
  match fuel with
  | O => acc
  | S f =>
      let acc' := (48 + n mod 10) :: acc in
      if n / 10 =? 0 then acc' else digits f (n / 10) acc'
  end.

(** The decimal digits of [n]; it has no more of them than binary ones. *)
Definition intstr_N (n : N) : pystr := digits (S (N.to_nat (N.log2 n))) n [].

Definition intstr (z : Z) : pystr :=
  if (z <? 0)%Z then 45 :: intstr_N (Z.abs_N z) else intstr_N (Z.abs_N z).

(** ** Containers: [_iterencode_list] and [_iterencode_dict] *)

(** ['\n' + _indent * _current_indent_level], with [_indent = ' ' * 2] *)
Definition newline_indent (level : nat) : pystr :=
  10 :: repeat 32 (2 * level)%nat.

(** The chunks of a non-empty container after the first: each is
    preceded by the separator. *)
Fixpoint joined (sep : pystr) (chunks : list pystr) : pystr :=
  match chunks with
  | [] => []
  | c :: cs => sep ++ c ++ joined sep cs
  end.

Definition key_separator : pystr := [58; 32].
Definition item_separator : pystr := [44].

Fixpoint iterencode (level : nat) (v : value) : pystr :=
  match v with
  | VNone => u "null"
  | VBool true => u "true"
  | VBool false => u "false"
  | VInt z => intstr z
  | VStr s => encode_basestring_ascii s
  | VList [] => u "[]"
  | VList (x :: xs) =>
      let sep := item_separator ++ newline_indent (S level) in
      [91] ++ newline_indent (S level)
        ++ iterencode (S level) x
        ++ joined sep (List.map (iterencode (S level)) xs)
        ++ newline_indent level ++ [93]
  | VDict [] => u "{}"
  | VDict ((k, x) :: kxs) =>
      let sep := item_separator ++ newline_indent (S level) in
      let item (kv : pystr * value) :=
        encode_basestring_ascii (fst kv) ++ key_separator
          ++ iterencode (S level) (snd kv) in
      [123] ++ newline_indent (S level)
        ++ encode_basestring_ascii k ++ key_separator
        ++ iterencode (S level) x
        ++ joined sep (List.map item kxs)
        ++ newline_indent level ++ [125]
  end.

(** [json.dumps(obj, indent=2)] *)
Definition dumps (obj : value) : pystr := iterencode 0 obj.

(** * [json.loads]

    The decoder of CPython's [json.decoder] and [json.scanner], reading
    the text from left to right and returning the text that is left.
    [None] stands for a [JSONDecodeError], and for a document with a
    number that is not an integer ([1.5], [1e3], [NaN], [Infinity]),
    since [value] carries no [float]. *)

(** [WHITESPACE_STR = ' \t\n\r'] *)
Definition is_ws (c : N) : bool :=
  (c =? 32) || (c =? 9) || (c =? 10) || (c =? 13).

Fixpoint skip_ws (s : pystr) : pystr :=
  match s with
  | c :: r => if is_ws c then skip_ws r else s
  | [] => []
  end.

Definition hexval (c : N) : option N :=
  if (48 <=? c) && (c <=? 57) then Some (c - 48)
  else if (97 <=? c) && (c <=? 102) then Some (c - 87)
  else if (65 <=? c) && (c <=? 70) then Some (c - 55)
  else None.

(** [_decode_uXXXX]: four hexadecimal digits. *)
Definition decode_uXXXX (h1 h2 h3 h4 : N) : option N :=
  match hexval h1, hexval h2, hexval h3, hexval h4 with
  | Some a, Some b, Some c, Some d => Some (4096 * a + 256 * b + 16 * c + d)
  | _, _, _, _ => None
  end.

(** The table [BACKSLASH]. *)
Definition backslash (e : N) : option N :=
  if e =? 34 then Some 34
  else if e =? 92 then Some 92
  else if e =? 47 then Some 47
  else if e =? 98 then Some 8
  else if e =? 102 then Some 12
  else if e =? 110 then Some 10
  else if e =? 114 then Some 13
  else if e =? 116 then Some 9
  else None.

Definition is_high_surrogate (n : N) : bool := (55296 <=? n) && (n <=? 56319).
Definition is_low_surrogate (n : N) : bool := (56320 <=? n) && (n <=? 57343).

Definition cons_char (c : N) (r : option (pystr * pystr)) :
  option (pystr * pystr) :=
  match r with
  | Some (s, rest) => Some (c :: s, rest)
  | None => None
  end.

(** [scanstring] in strict mode, started after the opening quote: the
    decoded string and the text after the closing quote. *)
Fixpoint scanstring (s : pystr) : option (pystr * pystr) :=
  match s with
  | [] => None
  | c :: r =>
      if c =? 34 then Some ([], r)
      else if c =? 92 then
        match r with
        | [] => None
        | e :: r1 =>
            if e =? 117 then
              match r1 with
              | h1 :: h2 :: h3 :: h4 :: r2 =>
                  match decode_uXXXX h1 h2 h3 h4 with
                  | None => None
                  | Some uni =>
                      if is_high_surrogate uni then
                        match r2 with
                        | b :: e2 :: l1 :: l2 :: l3 :: l4 :: r3 =>
                            if (b =? 92) && (e2 =? 117) then
                              match decode_uXXXX l1 l2 l3 l4 with
                              | None => None
                              | Some uni2 =>
                                  if is_low_surrogate uni2 then
                                    cons_char
                                      (65536 + N.lor (N.shiftl (uni - 55296) 10)
                                                     (uni2 - 56320))
                                      (scanstring r3)
                                  else cons_char uni (scanstring r2)
                              end
                            else cons_char uni (scanstring r2)
                        | _ => cons_char uni (scanstring r2)
                        end
                      else cons_char uni (scanstring r2)
                  end
              | _ => None
              end
            else
              match backslash e with
              | Some ch => cons_char ch (scanstring r1)
              | None => None
              end
        end
      else if c <? 32 then None
      else cons_char c (scanstring r)
  end.

Definition is_digit (c : N) : bool := (48 <=? c) && (c <=? 57).

Fixpoint take_digits (s : pystr) (acc : N) : N * pystr :=
  match s with
  | c :: r => if is_digit c then take_digits r (10 * acc + (c - 48)) else (acc, s)
  | [] => (acc, [])
  end.

(** A fraction or an exponent after the integer part makes a [float]. *)
Definition int_result (neg : bool) (n : N) (rest : pystr) : option (value * pystr) :=
  let z := if neg then (- Z.of_N n)%Z else Z.of_N n in
  match rest with
  | c :: _ => if (c =? 46) || (c =? 101) || (c =? 69) then None else Some (VInt z, rest)
  | [] => Some (VInt z, rest)
  end.

(** [NUMBER_RE], integer part [-?(?:0|[1-9]\d* )]. *)
Definition match_number (s : pystr) : option (value * pystr) :=
  let '(neg, s1) := match s with
                    | c :: r => if c =? 45 then (true, r) else (false, s)
                    | [] => (false, s)
                    end in
  match s1 with
  | c :: r =>
      if c =? 48 then int_result neg 0 r
      else if (49 <=? c) && (c <=? 57) then
        let '(n, r') := take_digits r (c - 48) in int_result neg n r'
      else None
  | [] => None
  end.

Fixpoint strip_prefix (p s : pystr) : option pystr :=
  match p, s with
  | [], _ => Some s
  | a :: p', b :: s' => if a =? b then strip_prefix p' s' else None
  | _ :: _, [] => None
  end.

Fixpoint str_eqb (a b : pystr) : bool :=
  match a, b with
  | [], [] => true
  | x :: a', y :: b' => (x =? y) && str_eqb a' b'
  | _, _ => false
  end.

(** [d[k] = v] on a [dict]: a key that is present keeps its place. *)
Fixpoint dict_set (d : list (pystr * value)) (k : pystr) (v : value) :
  list (pystr * value) :=
  match d with
  | [] => [(k, v)]
  | (k', v') :: r =>
      if str_eqb k' k then (k', v) :: r else (k', v') :: dict_set r k v
  end.

(** [dict(pairs)] *)
Definition dict_of_pairs (pairs : list (pystr * value)) : list (pystr * value) :=
  fold_left (fun d kv => dict_set d (fst kv) (snd kv)) pairs [].

(** [scan_once], [JSONArray] and [JSONObject]. The recursion of the three
    on one another is bounded by [fuel]; [loads] gives as much as the text
    is long, which no document exhausts. *)
Fixpoint scan_once (fuel : nat) (s : pystr) {struct fuel} : option (value * pystr) :=
  match fuel with
  | O => None
  | S f =>
      match s with
      | [] => None
      | c :: r =>
          if c =? 34 then
            match scanstring r with
            | Some (str, rest) => Some (VStr str, rest)
            | None => None
            end
          else if c =? 123 then
            match skip_ws r with
            | c1 :: r1 =>
                if c1 =? 125 then Some (VDict [], r1)
                else if c1 =? 34 then
                  match object_loop f r1 with
                  | Some (pairs, rest) => Some (VDict (dict_of_pairs pairs), rest)
                  | None => None
                  end
                else None
            | [] => None
            end
          else if c =? 91 then
            match skip_ws r with
            | c1 :: r1 =>
                if c1 =? 93 then Some (VList [], r1)
                else
                  match array_loop f (c1 :: r1) with
                  | Some (values, rest) => Some (VList values, rest)
                  | None => None
                  end
            | [] => None
            end
          else
            match strip_prefix (u "null") s with
            | Some rest => Some (VNone, rest)
            | None =>
                match strip_prefix (u "true") s with
                | Some rest => Some (VBool true, rest)
                | None =>
                    match strip_prefix (u "false") s with
                    | Some rest => Some (VBool false, rest)
                    | None => match_number s
                    end
                end
            end
      end
  end

(** The loop of [JSONArray], at the first character of a value. *)
with array_loop (fuel : nat) (s : pystr) {struct fuel} :
  option (list value * pystr) :=
  match fuel with
  | O => None
  | S f =>
      match scan_once f s with
      | None => None
      | Some (v, r) =>
          match skip_ws r with
          | c :: r1 =>
              if c =? 93 then Some ([v], r1)
              else if c =? 44 then
                match array_loop f (skip_ws r1) with
                | Some (vs, rest) => Some (v :: vs, rest)
                | None => None
                end
              else None
          | [] => None
          end
      end
  end

(** The loop of [JSONObject], after the opening quote of a key. *)
with object_loop (fuel : nat) (s : pystr) {struct fuel} :
  option (list (pystr * value) * pystr) :=
  match fuel with
  | O => None
  | S f =>
      match scanstring s with
      | None => None
      | Some (key, r) =>
          match skip_ws r with
          | c :: r1 =>
              if c =? 58 then
                match scan_once f (skip_ws r1) with
                | None => None
                | Some (v, r2) =>
                    match skip_ws r2 with
                    | c2 :: r3 =>
                        if c2 =? 125 then Some ([(key, v)], r3)
                        else if c2 =? 44 then
                          match skip_ws r3 with
                          | c3 :: r4 =>
                              if c3 =? 34 then
                                match object_loop f r4 with
                                | Some (kvs, rest) => Some ((key, v) :: kvs, rest)
                                | None => None
                                end
                              else None
                          | [] => None
                          end
                        else None
                    | [] => None
                    end
                end
              else None
          | [] => None
          end
      end
  end.

(** [JSONDecoder.decode]: one value between optional whitespace, and
    nothing after it. *)
Definition loads (s : pystr) : option value :=
  match scan_once (S (length s)) (skip_ws s) with
  | Some (v, rest) =>
      match skip_ws rest with
      | [] => Some v
      | _ :: _ => None
      end
  | None => None
  end.

End Json.

(** * The data modules *)

(** ** Constants of data/mothergoose.py *)

(** [MOTHERGOOSE_API_ENDPOINTS], from data/mothergoose.py. *)
Definition MOTHERGOOSE_API_ENDPOINTS : value :=
  VList [
    VDict [
      (u "method", str "GET");
      (u "path", str "/health");
      (u "description", str "Service health check");
      (u "auth", str "none");
      (u "response", str "200 OK with status")
    ];
    VDict [
      (u "method", str "GET");
      (u "path", str "/eggs");
      (u "description", str "List all EggConfigs");
      (u "auth", str "bearer");
      (u "response", str "list[EggConfig]")
    ];
    VDict [
      (u "method", str "GET");
      (u "path", str "/eggs/{egg_name}");
      (u "description", str "Get a single EggConfig by name");
      (u "auth", str "bearer");
      (u "response", str "EggConfig")
    ];
    VDict [
      (u "method", str "POST");
      (u "path", str "/eggs/{egg_name}/deploy");
      (u "description", str "Trigger runner deployment for an egg");
      (u "auth", str "bearer");
      (u "response", str "202 Accepted")
    ];
    VDict [
      (u "method", str "GET");
      (u "path", str "/runners");
      (u "description", str "List all runners, optional ?state= filter");
      (u "auth", str "bearer");
      (u "response", str "list[Runner]")
    ];
    VDict [
      (u "method", str "GET");
      (u "path", str "/runners/{runner_id}");
      (u "description", str "Get a single runner by ID");
      (u "auth", str "bearer");
      (u "response", str "Runner")
    ];
    VDict [
      (u "method", str "DELETE");
      (u "path", str "/runners/{runner_id}");
      (u "description", str "Terminate a runner");
      (u "auth", str "bearer");
      (u "response", str "202 Accepted")
    ];
    VDict [
      (u "method", str "POST");
      (u "path", str "/webhooks/gitlab");
      (u "description", str "Receive GitLab push/pipeline webhooks. Validates X-Gitlab-Token header, matches egg, enqueues Celery task.");
      (u "auth", str "X-Gitlab-Token header (per-egg secret)");
      (u "response", str "202 Accepted")
    ];
    VDict [
      (u "method", str "POST");
      (u "path", str "/internal/sync-git");
      (u "description", str "Trigger a Nest Git sync. Called by YC Timer or AWS EventBridge every 5 minutes, or on Nest push webhook.");
      (u "auth", str "internal secret token");
      (u "response", str "202 Accepted")
    ];
    VDict [
      (u "method", str "POST");
      (u "path", str "/internal/health-check");
      (u "description", str "Internal health check endpoint for cloud load balancers.");
      (u "auth", str "none");
      (u "response", str "200 OK")
    ];
    VDict [
      (u "method", str "GET");
      (u "path", str "/admin/binaries/tofu");
      (u "description", str "List available OpenTofu binary versions");
      (u "auth", str "bearer");
      (u "response", str "list[TofuVersion]")
    ];
    VDict [
      (u "method", str "POST");
      (u "path", str "/admin/binaries/tofu");
      (u "description", str "Download and register a new OpenTofu binary version");
      (u "auth", str "bearer");
      (u "response", str "TofuVersion")
    ];
    VDict [
      (u "method", str "PUT");
      (u "path", str "/admin/binaries/tofu/{version_id}/activate");
      (u "description", str "Activate a specific OpenTofu binary version");
      (u "auth", str "bearer");
      (u "response", str "200 OK")
    ];
    VDict [
      (u "method", str "GET");
      (u "path", str "/admin/binaries/gosling");
      (u "description", str "List available Gosling binary versions");
      (u "auth", str "bearer");
      (u "response", str "list[GoslingVersion]")
    ];
    VDict [
      (u "method", str "POST");
      (u "path", str "/admin/binaries/gosling");
      (u "description", str "Download and register a new Gosling binary version");
      (u "auth", str "bearer");
      (u "response", str "GoslingVersion")
    ];
    VDict [
      (u "method", str "PUT");
      (u "path", str "/admin/binaries/gosling/{version_id}/activate");
      (u "description", str "Activate a specific Gosling binary version");
      (u "auth", str "bearer");
      (u "response", str "200 OK")
    ]
  ].

(** [MOTHERGOOSE_CELERY_TASKS], from data/mothergoose.py. *)
Definition MOTHERGOOSE_CELERY_TASKS : value :=
  VList [
    VDict [
      (u "name", str "sync_nest_config");
      (u "module", str "tasks.git_sync");
      (u "queue", str "mothergoose.git_sync");
      (u "description", str "Clone/pull the Nest repo, parse all .fly files via Gosling CLI, upsert egg_configs/jobs/uf_config in DB, write sync_history record.");
      (u "triggered_by", VList [
        str "POST /internal/sync-git";
        str "YC Timer (5 min)";
        str "AWS EventBridge (5 min)";
        str "Nest push webhook"
      ])
    ];
    VDict [
      (u "name", str "process_webhook");
      (u "module", str "tasks.webhooks");
      (u "queue", str "mothergoose.webhooks");
      (u "description", str "Handle a GitLab push/pipeline webhook: fetch EggConfig, resolve secrets, render Jinja2 templates, run tofu plan+apply, upsert Runner, write audit_log.");
      (u "triggered_by", VList [str "POST /webhooks/gitlab"])
    ];
    VDict [
      (u "name", str "deploy_runner");
      (u "module", str "tasks.runners");
      (u "queue", str "mothergoose.runners");
      (u "description", str "Deploy a new runner for an egg using OpenTofu. Determines runner type (SERVERLESS/APEX/NADIR), renders templates, applies plan, stores DeploymentPlan.");
      (u "triggered_by", VList [str "POST /eggs/{egg_name}/deploy"; str "process_webhook"])
    ];
    VDict [
      (u "name", str "terminate_runner");
      (u "module", str "tasks.runners");
      (u "queue", str "mothergoose.runners");
      (u "description", str "Terminate a runner via OpenTofu destroy. Updates runner state to TERMINATED, writes audit_log.");
      (u "triggered_by", VList [str "DELETE /runners/{runner_id}"; str "UglyFox lifecycle tasks"])
    ];
    VDict [
      (u "name", str "deploy_serverless_runner");
      (u "module", str "tasks.runners");
      (u "queue", str "mothergoose.runners");
      (u "description", str "Deploy a YC Serverless Container or AWS ECS Fargate runner. Handles container image, resource limits, and cloud-specific config.");
      (u "triggered_by", VList [str "deploy_runner (when type=SERVERLESS)"])
    ];
    VDict [
      (u "name", str "cleanup_serverless_runner");
      (u "module", str "tasks.runners");
      (u "queue", str "mothergoose.runners");
      (u "description", str "Clean up a serverless runner after job completion. Removes container, updates state.");
      (u "triggered_by", VList [str "enforce_serverless_timeout"; str "UglyFox pruning"])
    ];
    VDict [
      (u "name", str "enforce_serverless_timeout");
      (u "module", str "tasks.maintenance");
      (u "queue", str "mothergoose.maintenance");
      (u "description", str "Periodic task that finds serverless runners exceeding max runtime and triggers cleanup.");
      (u "triggered_by", VList [str "Celery beat schedule"])
    ];
    VDict [
      (u "name", str "cleanup_old_results");
      (u "module", str "tasks.maintenance");
      (u "queue", str "mothergoose.maintenance");
      (u "description", str "Prune old Celery task results and expired sync_history records from the database.");
      (u "triggered_by", VList [str "Celery beat schedule"])
    ];
    VDict [
      (u "name", str "update_metrics");
      (u "module", str "tasks.maintenance");
      (u "queue", str "mothergoose.maintenance");
      (u "description", str "Collect and publish runner/egg metrics to cloud monitoring (YC Monitoring / CloudWatch).");
      (u "triggered_by", VList [str "Celery beat schedule"])
    ]
  ].

(** [MOTHERGOOSE_MODELS], from data/mothergoose.py. *)
Definition MOTHERGOOSE_MODELS : value :=
  VDict [
    (u "Runner", VDict [
      (u "description", str "Represents a deployed GitLab runner (VM or serverless container).");
      (u "fields", VDict [
        (u "id", VDict [(u "type", str "str"); (u "description", str "Unique runner ID (UUID)")]);
        (u "egg_name", VDict [(u "type", str "str"); (u "description", str "Name of the Egg that owns this runner")]);
        (u "type", VDict [
          (u "type", str "RunnerType");
          (u "enum", VList [str "SERVERLESS"; str "APEX"; str "NADIR"]);
          (u "description", str "Runner deployment type")
        ]);
        (u "state", VDict [
          (u "type", str "RunnerState");
          (u "enum", VList [str "ACTIVE"; str "IDLE"; str "BUSY"; str "FAILED"; str "TERMINATED"]);
          (u "description", str "Current runner state")
        ]);
        (u "cloud_provider", VDict [(u "type", str "CloudProvider"); (u "enum", VList [str "YANDEX"; str "AWS"])]);
        (u "region", VDict [(u "type", str "str"); (u "description", str "Cloud region (e.g. ru-central1, us-east-1)")]);
        (u "gitlab_runner_id", VDict [(u "type", str "int"); (u "description", str "GitLab runner registration ID")]);
        (u "deployed_from_commit", VDict [(u "type", str "str"); (u "description", str "Nest repo commit SHA used for deployment")]);
        (u "created_at", VDict [(u "type", str "datetime")]);
        (u "updated_at", VDict [(u "type", str "datetime")]);
        (u "last_heartbeat", VDict [
          (u "type", str "datetime");
          (u "description", str "Last time UglyFox confirmed runner is alive")
        ]);
        (u "failure_count", VDict [
          (u "type", str "int");
          (u "description", str "Consecutive failure count, used by UglyFox pruning")
        ]);
        (u "metadata", VDict [
          (u "type", str "dict");
          (u "description", str "Cloud-specific metadata (instance ID, container ID, etc.)")
        ])
      ])
    ]);
    (u "EggConfig", VDict [
      (u "description", str "Parsed configuration for a single Egg or EggsBucket from the Nest repo.");
      (u "fields", VDict [
        (u "id", VDict [(u "type", str "str"); (u "description", str "UUID")]);
        (u "name", VDict [(u "type", str "str"); (u "description", str "Egg name (directory name under Eggs/)")]);
        (u "project_id", VDict [(u "type", str "int"); (u "description", str "GitLab project ID (single egg)")]);
        (u "group_id", VDict [(u "type", str "int"); (u "description", str "GitLab group ID (eggsbucket)")]);
        (u "config", VDict [(u "type", str "dict"); (u "description", str "Full parsed .fly config as dict")]);
        (u "git_commit", VDict [(u "type", str "str"); (u "description", str "Nest commit SHA when this config was synced")]);
        (u "git_repo_url_secret", VDict [(u "type", str "str"); (u "description", str "Secret URI for the repo URL")]);
        (u "gitlab_token_secret_uri", VDict [(u "type", str "str"); (u "description", str "Secret URI for GitLab registration token")]);
        (u "gitlab_webhook_secret_uri", VDict [(u "type", str "str"); (u "description", str "Secret URI for webhook validation token")]);
        (u "synced_at", VDict [(u "type", str "datetime")]);
        (u "created_at", VDict [(u "type", str "datetime")]);
        (u "updated_at", VDict [(u "type", str "datetime")])
      ])
    ]);
    (u "SyncHistory", VDict [
      (u "description", str "Record of a single Nest Git sync operation.");
      (u "fields", VDict [
        (u "id", VDict [(u "type", str "str")]);
        (u "git_commit", VDict [(u "type", str "str")]);
        (u "sync_type", VDict [(u "type", str "str"); (u "enum", VList [str "scheduled"; str "webhook"; str "manual"])]);
        (u "status", VDict [(u "type", str "SyncStatus"); (u "enum", VList [str "SUCCESS"; str "FAILED"])]);
        (u "changes_detected", VDict [(u "type", str "int")]);
        (u "eggs_synced", VDict [(u "type", str "int")]);
        (u "jobs_synced", VDict [(u "type", str "int")]);
        (u "uf_config_synced", VDict [(u "type", str "bool")]);
        (u "error_message", VDict [(u "type", str "str | None")]);
        (u "synced_at", VDict [(u "type", str "datetime")]);
        (u "duration_ms", VDict [(u "type", str "int")])
      ])
    ]);
    (u "DeploymentPlan", VDict [
      (u "description", str "Stored OpenTofu plan for a runner deployment, enabling rollback.");
      (u "fields", VDict [
        (u "id", VDict [(u "type", str "str")]);
        (u "egg_name", VDict [(u "type", str "str")]);
        (u "plan_type", VDict [(u "type", str "str"); (u "enum", VList [str "deploy"; str "terminate"; str "update"])]);
        (u "config_hash", VDict [(u "type", str "str"); (u "description", str "SHA256 of the rendered Jinja2 config")]);
        (u "status", VDict [
          (u "type", str "DeploymentStatus");
          (u "enum", VList [str "PENDING"; str "APPLIED"; str "ROLLED_BACK"; str "FAILED"])
        ]);
        (u "plan_binary", VDict [(u "type", str "bytes"); (u "description", str "Serialized OpenTofu plan binary")]);
        (u "rollback_plan_id", VDict [(u "type", str "str | None"); (u "description", str "ID of the plan to apply for rollback")]);
        (u "created_at", VDict [(u "type", str "datetime")]);
        (u "applied_at", VDict [(u "type", str "datetime | None")]);
        (u "metadata", VDict [(u "type", str "dict")])
      ])
    ]);
    (u "AuditLog", VDict [
      (u "description", str "Immutable audit trail for all system actions.");
      (u "fields", VDict [
        (u "id", VDict [(u "type", str "str")]);
        (u "timestamp", VDict [(u "type", str "datetime")]);
        (u "actor", VDict [(u "type", str "str"); (u "description", str "Service or user that performed the action")]);
        (u "action", VDict [(u "type", str "str"); (u "description", str "Action name (e.g. runner.deploy, egg.sync)")]);
        (u "resource_type", VDict [(u "type", str "str")]);
        (u "resource_id", VDict [(u "type", str "str")]);
        (u "details", VDict [(u "type", str "dict")])
      ])
    ])
  ].

(** [MOTHERGOOSE_SERVICES], from data/mothergoose.py. *)
Definition MOTHERGOOSE_SERVICES : value :=
  VList [
    VDict [
      (u "name", str "GitSyncService");
      (u "module", str "services.git_sync_service");
      (u "description", str "Clones/pulls the Nest repo via GitPython, delegates .fly parsing to FlyParserService, upserts results to DB.");
      (u "methods", VList [
        str "sync_from_git(commit)";
        str "parse_eggs(path)";
        str "parse_jobs(path)";
        str "parse_uf_config(path)"
      ])
    ];
    VDict [
      (u "name", str "FlyParserService");
      (u "module", str "services.fly_parser");
      (u "description", str "Invokes the Gosling CLI binary as a subprocess to parse .fly files into JSON dicts.");
      (u "methods", VList [
        str "parse_egg(path)";
        str "parse_job(path)";
        str "parse_uf_config(path)";
        str "_call_gosling_parse(path, type)"
      ])
    ];
    VDict [
      (u "name", str "SecretManager");
      (u "module", str "services.secret_manager");
      (u "description", str "Resolves secret URIs (yc-lockbox://, aws-sm://, vault://) to plaintext values. Uses SecretCache for TTL-based caching.");
      (u "methods", VList [str "get_secret(uri)"; str "_yc_lockbox(uri)"; str "_aws_sm(uri)"; str "_vault(uri)"])
    ];
    VDict [
      (u "name", str "RunnerOrchestrationService");
      (u "module", str "services.runner_orchestration");
      (u "description", str "Orchestrates runner lifecycle: determines type, calls OpenTofuConfiguration to deploy/terminate, stores DeploymentPlan.");
      (u "methods", VList [str "deploy_runner(egg)"; str "terminate_runner(runner_id)"; str "determine_runner_type(egg)"])
    ];
    VDict [
      (u "name", str "OpenTofuConfiguration");
      (u "module", str "services.opentofu_config");
      (u "description", str "Renders Jinja2 templates from templates/ directory, generates and applies OpenTofu plans via tofupy.");
      (u "methods", VList [str "render_templates(settings)"; str "generate_plan()"; str "apply_plan(plan)"])
    ];
    VDict [
      (u "name", str "OpenTofuBinary / OpenTofuDownloadGithub / OpenTofuDownloadFromOtherSource");
      (u "module", str "services.opentofu_binary");
      (u "description", str "Abstract base + concrete implementations for downloading and extracting OpenTofu binaries from GitHub releases or custom sources.");
      (u "methods", VList [str "store_downloaded_bin()"; str "_download_and_extract(extract_to)"])
    ];
    VDict [
      (u "name", str "GoslingBinaryManager");
      (u "module", str "services.gosling_manager");
      (u "description", str "Manages Gosling CLI binary versions: mounts from S3/object storage, verifies SHA256, activates a version for use by FlyParserService.");
      (u "methods", VList [str "mount_s3_binaries()"; str "get_active_binary_path()"; str "verify_and_activate(version)"])
    ];
    VDict [
      (u "name", str "EggService");
      (u "module", str "services.egg_service");
      (u "description", str "CRUD operations for EggConfig records. Used by routers and git sync.");
      (u "methods", VList [str "get_egg(name)"; str "list_eggs()"; str "upsert_egg(config)"; str "delete_egg(name)"])
    ];
    VDict [
      (u "name", str "DeploymentPlanService");
      (u "module", str "services.deployment_plan_service");
      (u "description", str "Creates, stores, applies, and rolls back OpenTofu deployment plans.");
      (u "methods", VList [str "create_plan(egg_name, config)"; str "apply_plan(plan_id)"; str "rollback(plan_id)"])
    ]
  ].

(** [MOTHERGOOSE_ENV_VARS], from data/mothergoose.py. *)
Definition MOTHERGOOSE_ENV_VARS : value :=
  VList [
    VDict [
      (u "name", str "MOTHERGOOSE_DB_BACKEND");
      (u "type", str "str");
      (u "values", VList [str "ydb"; str "dynamodb"]);
      (u "description", str "Database backend to use")
    ];
    VDict [
      (u "name", str "MOTHERGOOSE_YDB_ENDPOINT");
      (u "type", str "str");
      (u "description", str "YDB gRPC endpoint (e.g. grpcs://ydb.serverless.yandexcloud.net:2135)")
    ];
    VDict [
      (u "name", str "MOTHERGOOSE_YDB_DATABASE");
      (u "type", str "str");
      (u "description", str "YDB database path")
    ];
    VDict [
      (u "name", str "MOTHERGOOSE_DYNAMODB_TABLE_PREFIX");
      (u "type", str "str");
      (u "description", str "Prefix for DynamoDB table names")
    ];
    VDict [
      (u "name", str "MOTHERGOOSE_AWS_REGION");
      (u "type", str "str");
      (u "description", str "AWS region for DynamoDB/SQS/Secrets Manager")
    ];
    VDict [
      (u "name", str "MOTHERGOOSE_CELERY_BROKER_URL");
      (u "type", str "str");
      (u "description", str "Celery broker URL (SQS or YMQ endpoint)")
    ];
    VDict [
      (u "name", str "MOTHERGOOSE_CELERY_RESULT_BACKEND");
      (u "type", str "str");
      (u "description", str "Celery result backend URL")
    ];
    VDict [
      (u "name", str "MOTHERGOOSE_NEST_REPO_URL_SECRET");
      (u "type", str "str");
      (u "description", str "Secret URI for the Nest Git repo URL")
    ];
    VDict [
      (u "name", str "MOTHERGOOSE_NEST_REPO_BRANCH");
      (u "type", str "str");
      (u "default", str "main");
      (u "description", str "Nest repo branch to sync")
    ];
    VDict [
      (u "name", str "MOTHERGOOSE_INTERNAL_SECRET_TOKEN");
      (u "type", str "str");
      (u "description", str "Token for /internal/* endpoints")
    ];
    VDict [
      (u "name", str "MOTHERGOOSE_OPENTOFU_BINARY_PATH");
      (u "type", str "str");
      (u "description", str "Path to the active OpenTofu binary")
    ];
    VDict [
      (u "name", str "MOTHERGOOSE_GOSLING_BINARY_PATH");
      (u "type", str "str");
      (u "description", str "Path to the active Gosling CLI binary")
    ];
    VDict [
      (u "name", str "MOTHERGOOSE_SECRET_CACHE_TTL");
      (u "type", str "int");
      (u "default", VInt 300);
      (u "description", str "Secret cache TTL in seconds")
    ];
    VDict [
      (u "name", str "MOTHERGOOSE_LOG_LEVEL");
      (u "type", str "str");
      (u "default", str "INFO");
      (u "values", VList [str "DEBUG"; str "INFO"; str "WARNING"; str "ERROR"])
    ];
    VDict [
      (u "name", str "MOTHERGOOSE_YC_FOLDER_ID");
      (u "type", str "str");
      (u "description", str "Yandex Cloud folder ID for resource provisioning")
    ];
    VDict [
      (u "name", str "MOTHERGOOSE_COMPUTE_MODULE_SOURCE");
      (u "type", str "str");
      (u "description", str "OpenTofu module source path or registry URL")
    ]
  ].

(** ** Constants of data/uglyfox.py *)

(** [UGLYFOX_CELERY_TASKS], from data/uglyfox.py. *)
Definition UGLYFOX_CELERY_TASKS : value :=
  VList [
    VDict [
      (u "name", str "check_runner_health");
      (u "module", str "tasks.health");
      (u "queue", str "uglyfox.health");
      (u "schedule", str "every 60 seconds");
      (u "description", str "Polls all ACTIVE/IDLE/BUSY runners for heartbeat. Updates last_heartbeat and state. Increments failure_count on no response.")
    ];
    VDict [
      (u "name", str "collect_runner_metrics");
      (u "module", str "tasks.health");
      (u "queue", str "uglyfox.health");
      (u "schedule", str "every 5 minutes");
      (u "description", str "Collects CPU/memory/job metrics from runners and publishes to cloud monitoring.")
    ];
    VDict [
      (u "name", str "identify_unhealthy_runners");
      (u "module", str "tasks.health");
      (u "queue", str "uglyfox.health");
      (u "schedule", str "every 2 minutes");
      (u "description", str "Finds runners with failure_count exceeding threshold or stale heartbeat. Marks them FAILED and enqueues pruning.")
    ];
    VDict [
      (u "name", str "manage_apex_nadir_pools");
      (u "module", str "tasks.lifecycle");
      (u "queue", str "uglyfox.lifecycle");
      (u "schedule", str "every 5 minutes");
      (u "description", str "Evaluates Apex/Nadir pool sizes per egg against UF config targets. Triggers promotions or demotions as needed.")
    ];
    VDict [
      (u "name", str "promote_nadir_to_apex");
      (u "module", str "tasks.lifecycle");
      (u "queue", str "uglyfox.lifecycle");
      (u "description", str "Promotes a NADIR (dormant) runner to APEX (active) state. Sends Celery task to MotherGoose to reconfigure the runner.");
      (u "triggered_by", VList [str "manage_apex_nadir_pools"])
    ];
    VDict [
      (u "name", str "demote_apex_to_nadir");
      (u "module", str "tasks.lifecycle");
      (u "queue", str "uglyfox.lifecycle");
      (u "description", str "Demotes an APEX runner to NADIR state when pool is oversized or runner is idle beyond threshold.");
      (u "triggered_by", VList [str "manage_apex_nadir_pools"])
    ];
    VDict [
      (u "name", str "transition_runner_state");
      (u "module", str "tasks.lifecycle");
      (u "queue", str "uglyfox.lifecycle");
      (u "description", str "Generic state machine transition for a runner. Validates allowed transitions and writes audit_log.");
      (u "triggered_by", VList [str "promote_nadir_to_apex"; str "demote_apex_to_nadir"; str "prune_failed_runners"])
    ];
    VDict [
      (u "name", str "evaluate_pruning_policies");
      (u "module", str "tasks.pruning");
      (u "queue", str "uglyfox.pruning");
      (u "schedule", str "every 10 minutes");
      (u "description", str "Reads UF/config.fly pruning rules from DB. Identifies runners that violate max_age, max_failures, or idle_timeout policies.")
    ];
    VDict [
      (u "name", str "prune_failed_runners");
      (u "module", str "tasks.pruning");
      (u "queue", str "uglyfox.pruning");
      (u "description", str "Terminates runners in FAILED state that exceed the failure threshold. Sends terminate_runner task to MotherGoose.");
      (u "triggered_by", VList [str "evaluate_pruning_policies"; str "identify_unhealthy_runners"])
    ];
    VDict [
      (u "name", str "prune_old_runners");
      (u "module", str "tasks.pruning");
      (u "queue", str "uglyfox.pruning");
      (u "description", str "Terminates runners that exceed max_age_hours from UF config. Ensures runner fleet stays fresh.");
      (u "triggered_by", VList [str "evaluate_pruning_policies"])
    ];
    VDict [
      (u "name", str "terminate_runner");
      (u "module", str "tasks.pruning");
      (u "queue", str "uglyfox.pruning");
      (u "description", str "Sends a terminate_runner Celery task to MotherGoose via SQS/YMQ. UglyFox does not call OpenTofu directly.");
      (u "triggered_by", VList [str "prune_failed_runners"; str "prune_old_runners"])
    ]
  ].

(** [UGLYFOX_CONFIG_SCHEMA], from data/uglyfox.py. *)
Definition UGLYFOX_CONFIG_SCHEMA : value :=
  VDict [
    (u "description", VStr (u "Schema for UF/config.fly " ++ em_dash ++ u " UglyFox lifecycle and pruning configuration."));
    (u "file_location", str "Nest/UF/config.fly");
    (u "top_level_block", str "uglyfox");
    (u "blocks", VDict [
      (u "pruning", VDict [
        (u "description", str "Global pruning policies applied to all runners unless overridden per-egg.");
        (u "attributes", VDict [
          (u "max_age_hours", VDict [
            (u "type", str "number");
            (u "description", str "Maximum runner age before forced termination")
          ]);
          (u "max_failures", VDict [(u "type", str "number"); (u "description", str "Consecutive failure count before pruning")]);
          (u "idle_timeout_minutes", VDict [
            (u "type", str "number");
            (u "description", VStr (u "Minutes idle before APEX" ++ rarrow ++ u "NADIR demotion"))
          ]);
          (u "check_interval_seconds", VDict [
            (u "type", str "number");
            (u "default", VInt 60);
            (u "description", str "Health check polling interval")
          ])
        ])
      ]);
      (u "runners_condition", VDict [
        (u "description", str "Per-egg overrides for pruning conditions.");
        (u "attributes", VDict [
          (u "egg_name", VDict [(u "type", str "string"); (u "description", str "Target egg name")]);
          (u "max_age_hours", VDict [(u "type", str "number"); (u "description", str "Override global max_age_hours")]);
          (u "max_failures", VDict [(u "type", str "number"); (u "description", str "Override global max_failures")])
        ])
      ]);
      (u "apex_pool", VDict [
        (u "description", str "Apex (active) runner pool configuration.");
        (u "attributes", VDict [
          (u "min_size", VDict [
            (u "type", str "number");
            (u "description", str "Minimum number of APEX runners to maintain")
          ]);
          (u "max_size", VDict [(u "type", str "number"); (u "description", str "Maximum APEX runners allowed")]);
          (u "scale_up_threshold", VDict [(u "type", str "number"); (u "description", str "Job queue depth to trigger scale-up")])
        ])
      ]);
      (u "nadir_pool", VDict [
        (u "description", str "Nadir (dormant/warm standby) runner pool configuration.");
        (u "attributes", VDict [
          (u "min_size", VDict [(u "type", str "number"); (u "description", str "Minimum NADIR runners to keep warm")]);
          (u "max_size", VDict [(u "type", str "number"); (u "description", str "Maximum NADIR runners allowed")]);
          (u "warmup_time_seconds", VDict [
            (u "type", str "number");
            (u "description", VStr (u "Expected time to promote NADIR" ++ rarrow ++ u "APEX"))
          ])
        ])
      ])
    ]);
    (u "example", VStr (nl
          ++ u "uglyfox {" ++ nl
          ++ u "  pruning {" ++ nl
          ++ u "    max_age_hours          = 72" ++ nl
          ++ u "    max_failures           = 5" ++ nl
          ++ u "    idle_timeout_minutes   = 30" ++ nl
          ++ u "    check_interval_seconds = 60" ++ nl
          ++ u "  }" ++ nl
          ++ nl
          ++ u "  apex_pool {" ++ nl
          ++ u "    min_size           = 1" ++ nl
          ++ u "    max_size           = 10" ++ nl
          ++ u "    scale_up_threshold = 5" ++ nl
          ++ u "  }" ++ nl
          ++ nl
          ++ u "  nadir_pool {" ++ nl
          ++ u "    min_size            = 0" ++ nl
          ++ u "    max_size            = 5" ++ nl
          ++ u "    warmup_time_seconds = 30" ++ nl
          ++ u "  }" ++ nl
          ++ nl
          ++ u "  runners_condition {" ++ nl
          ++ u "    egg_name     = " ++ dq ++ u "my-project" ++ dq ++ nl
          ++ u "    max_failures = 3" ++ nl
          ++ u "  }" ++ nl
          ++ u "}" ++ nl))
  ].

(** [UGLYFOX_ENV_VARS], from data/uglyfox.py. *)
Definition UGLYFOX_ENV_VARS : value :=
  VList [
    VDict [
      (u "name", str "UGLYFOX_DB_BACKEND");
      (u "type", str "str");
      (u "values", VList [str "ydb"; str "dynamodb"]);
      (u "description", str "Database backend")
    ];
    VDict [
      (u "name", str "UGLYFOX_YDB_ENDPOINT");
      (u "type", str "str");
      (u "description", str "YDB gRPC endpoint")
    ];
    VDict [
      (u "name", str "UGLYFOX_YDB_DATABASE");
      (u "type", str "str");
      (u "description", str "YDB database path")
    ];
    VDict [
      (u "name", str "UGLYFOX_DYNAMODB_TABLE_PREFIX");
      (u "type", str "str");
      (u "description", str "DynamoDB table name prefix")
    ];
    VDict [(u "name", str "UGLYFOX_AWS_REGION"); (u "type", str "str"); (u "description", str "AWS region")];
    VDict [
      (u "name", str "UGLYFOX_CELERY_BROKER_URL");
      (u "type", str "str");
      (u "description", str "Celery broker URL (SQS or YMQ)")
    ];
    VDict [
      (u "name", str "UGLYFOX_CELERY_RESULT_BACKEND");
      (u "type", str "str");
      (u "description", str "Celery result backend URL")
    ];
    VDict [
      (u "name", str "UGLYFOX_MOTHERGOOSE_QUEUE");
      (u "type", str "str");
      (u "description", str "Queue name for sending tasks to MotherGoose")
    ];
    VDict [
      (u "name", str "UGLYFOX_HEALTH_CHECK_INTERVAL");
      (u "type", str "int");
      (u "default", VInt 60);
      (u "description", str "Runner health check interval in seconds")
    ];
    VDict [
      (u "name", str "UGLYFOX_LOG_LEVEL");
      (u "type", str "str");
      (u "default", str "INFO");
      (u "values", VList [str "DEBUG"; str "INFO"; str "WARNING"; str "ERROR"])
    ];
    VDict [
      (u "name", str "UGLYFOX_YC_FOLDER_ID");
      (u "type", str "str");
      (u "description", str "Yandex Cloud folder ID")
    ]
  ].

(** ** Constants of data/gosling.py *)

(** [GOSLING_COMMANDS], from data/gosling.py. *)
Definition GOSLING_COMMANDS : value :=
  VList [
    VDict [
      (u "name", str "init");
      (u "usage", str "gosling init [flags]");
      (u "description", str "Initialize a new Nest repository structure. Creates Eggs/, Jobs/, UF/, MG/ directories with starter .fly files.");
      (u "flags", VList [
        VDict [
          (u "flag", str "--name");
          (u "short", str "-n");
          (u "type", str "string");
          (u "description", str "Nest repository name")
        ];
        VDict [
          (u "flag", str "--cloud");
          (u "short", str "-c");
          (u "type", str "string");
          (u "values", VList [str "yandex"; str "aws"; str "both"]);
          (u "description", str "Target cloud provider(s)")
        ];
        VDict [
          (u "flag", str "--output");
          (u "short", str "-o");
          (u "type", str "string");
          (u "default", str ".");
          (u "description", str "Output directory")
        ]
      ]);
      (u "example", str "gosling init --name my-nest --cloud both")
    ];
    VDict [
      (u "name", str "add egg");
      (u "usage", str "gosling add egg <name> [flags]");
      (u "description", str "Scaffold a new Egg config.fly under Eggs/<name>/. Prompts for runner type, cloud provider, and GitLab project ID.");
      (u "flags", VList [
        VDict [
          (u "flag", str "--type");
          (u "short", str "-t");
          (u "type", str "string");
          (u "values", VList [str "egg"; str "eggsbucket"]);
          (u "default", str "egg");
          (u "description", str "Egg type")
        ];
        VDict [
          (u "flag", str "--cloud");
          (u "short", str "-c");
          (u "type", str "string");
          (u "values", VList [str "yandex"; str "aws"]);
          (u "description", str "Cloud provider")
        ];
        VDict [
          (u "flag", str "--runner-type");
          (u "type", str "string");
          (u "values", VList [str "serverless"; str "apex"; str "nadir"]);
          (u "description", str "Runner deployment type")
        ];
        VDict [
          (u "flag", str "--project-id");
          (u "type", str "int");
          (u "description", str "GitLab project ID (egg only)")
        ];
        VDict [
          (u "flag", str "--group-id");
          (u "type", str "int");
          (u "description", str "GitLab group ID (eggsbucket only)")
        ]
      ]);
      (u "example", str "gosling add egg my-service --cloud yandex --runner-type serverless --project-id 12345")
    ];
    VDict [
      (u "name", str "add job");
      (u "usage", str "gosling add job <name> [flags]");
      (u "description", str "Scaffold a new Job .fly file under Jobs/<name>.fly.");
      (u "flags", VList [
        VDict [
          (u "flag", str "--schedule");
          (u "short", str "-s");
          (u "type", str "string");
          (u "description", str "Cron schedule expression")
        ];
        VDict [
          (u "flag", str "--cloud");
          (u "short", str "-c");
          (u "type", str "string");
          (u "values", VList [str "yandex"; str "aws"]);
          (u "description", str "Cloud provider for the job runner")
        ]
      ]);
      (u "example", str "gosling add job rotate-secrets --schedule '0 2 * * *' --cloud aws")
    ];
    VDict [
      (u "name", str "validate");
      (u "usage", str "gosling validate [path] [flags]");
      (u "description", str "Validate .fly files in the given path (or current directory). Checks syntax, required fields, type constraints, and secret URI formats.");
      (u "flags", VList [
        VDict [
          (u "flag", str "--path");
          (u "short", str "-p");
          (u "type", str "string");
          (u "default", str ".");
          (u "description", str "Path to validate")
        ];
        VDict [
          (u "flag", str "--strict");
          (u "type", str "bool");
          (u "description", str "Fail on warnings in addition to errors")
        ];
        VDict [
          (u "flag", str "--format");
          (u "type", str "string");
          (u "values", VList [str "text"; str "json"]);
          (u "default", str "text");
          (u "description", str "Output format")
        ]
      ]);
      (u "example", str "gosling validate ./Eggs/my-service --format json");
      (u "exit_codes", VDict [(u "0", str "valid"); (u "1", str "validation errors"); (u "2", str "parse error")])
    ];
    VDict [
      (u "name", str "parse");
      (u "usage", str "gosling parse <file> [flags]");
      (u "description", str "Parse a single .fly file and output the result as JSON. Used internally by MotherGoose FlyParserService via subprocess.");
      (u "flags", VList [
        VDict [
          (u "flag", str "--type");
          (u "short", str "-t");
          (u "type", str "string");
          (u "values", VList [str "egg"; str "eggsbucket"; str "job"; str "uglyfox"; str "mothergoose"]);
          (u "required", VBool true);
          (u "description", str "Block type to parse")
        ];
        VDict [
          (u "flag", str "--output");
          (u "short", str "-o");
          (u "type", str "string");
          (u "values", VList [str "json"; str "pretty"]);
          (u "default", str "json");
          (u "description", str "Output format")
        ]
      ]);
      (u "example", str "gosling parse Eggs/my-service/config.fly --type egg");
      (u "stdout", str "JSON representation of the parsed block");
      (u "stderr", str "Validation errors if any")
    ];
    VDict [
      (u "name", str "deploy");
      (u "usage", str "gosling deploy <egg-name> [flags]");
      (u "description", str "Trigger a runner deployment for an egg via the MotherGoose API (POST /eggs/{egg_name}/deploy).");
      (u "flags", VList [
        VDict [
          (u "flag", str "--server");
          (u "short", str "-s");
          (u "type", str "string");
          (u "description", str "MotherGoose API base URL")
        ];
        VDict [
          (u "flag", str "--token");
          (u "type", str "string");
          (u "description", str "Bearer token for MotherGoose API auth")
        ];
        VDict [
          (u "flag", str "--wait");
          (u "short", str "-w");
          (u "type", str "bool");
          (u "description", str "Wait for deployment to complete")
        ];
        VDict [
          (u "flag", str "--timeout");
          (u "type", str "int");
          (u "default", VInt 300);
          (u "description", str "Wait timeout in seconds")
        ]
      ]);
      (u "example", str "gosling deploy my-service --server https://mg.example.com --wait")
    ];
    VDict [
      (u "name", str "rollback");
      (u "usage", str "gosling rollback <egg-name> [flags]");
      (u "description", str "Roll back the last deployment for an egg by applying the stored rollback plan via MotherGoose API.");
      (u "flags", VList [
        VDict [
          (u "flag", str "--server");
          (u "short", str "-s");
          (u "type", str "string");
          (u "description", str "MotherGoose API base URL")
        ];
        VDict [(u "flag", str "--token"); (u "type", str "string"); (u "description", str "Bearer token")];
        VDict [
          (u "flag", str "--plan-id");
          (u "type", str "string");
          (u "description", str "Specific deployment plan ID to roll back to (defaults to last)")
        ]
      ]);
      (u "example", str "gosling rollback my-service --server https://mg.example.com")
    ];
    VDict [
      (u "name", str "status");
      (u "usage", str "gosling status [egg-name] [flags]");
      (u "description", str "Show runner status for an egg (or all eggs) by querying the MotherGoose API.");
      (u "flags", VList [
        VDict [
          (u "flag", str "--server");
          (u "short", str "-s");
          (u "type", str "string");
          (u "description", str "MotherGoose API base URL")
        ];
        VDict [(u "flag", str "--token"); (u "type", str "string"); (u "description", str "Bearer token")];
        VDict [
          (u "flag", str "--format");
          (u "type", str "string");
          (u "values", VList [str "table"; str "json"]);
          (u "default", str "table");
          (u "description", str "Output format")
        ];
        VDict [
          (u "flag", str "--watch");
          (u "short", str "-w");
          (u "type", str "bool");
          (u "description", str "Continuously poll and refresh status")
        ]
      ]);
      (u "example", str "gosling status my-service --server https://mg.example.com --format json")
    ]
  ].

(** [FLY_LANGUAGE_REFERENCE], from data/gosling.py. *)
Definition FLY_LANGUAGE_REFERENCE : value :=
  VDict [
    (u "description", str ".fly is an HCL-like DSL with stronger typing used to define all Polar Gosling configuration. Parsed by the Gosling CLI.");
    (u "syntax_rules", VList [
      str "Block syntax: block_type 'label' { ... } or block_type { ... }";
      str "Attribute syntax: key = value";
      str "String values use double quotes";
      str "Numbers are unquoted";
      str "Booleans: true / false";
      str "Lists: [item1, item2]";
      str "Secret URIs are strings with scheme prefix: yc-lockbox://, aws-sm://, vault://";
      str "Comments: # single line"
    ]);
    (u "type_system", VDict [
      (u "string", str "Double-quoted UTF-8 string");
      (u "number", str "Integer or float");
      (u "bool", str "true or false");
      (u "list(string)", str "List of strings");
      (u "list(number)", str "List of numbers");
      (u "secret_uri", str "String matching yc-lockbox://, aws-sm://, or vault:// scheme");
      (u "cron", str "Standard 5-field cron expression string");
      (u "duration", str "String with unit suffix: 30s, 5m, 2h, 7d");
      (u "memory", str "String with unit: 256MB, 1GB, 2048MB");
      (u "cpu", str "Number of vCPUs (float allowed: 0.5, 1, 2)")
    ]);
    (u "block_types", VDict [
      (u "egg", VDict [
        (u "location", str "Eggs/<name>/config.fly");
        (u "description", str "Single managed GitLab project runner configuration.");
        (u "required_attributes", VDict [
          (u "gitlab_server", VDict [(u "type", str "string"); (u "description", str "GitLab instance URL")]);
          (u "project_id", VDict [(u "type", str "number"); (u "description", str "GitLab project ID")]);
          (u "gitlab_token_secret", VDict [(u "type", str "secret_uri"); (u "description", str "Runner registration token secret")]);
          (u "gitlab_webhook_secret", VDict [(u "type", str "secret_uri"); (u "description", str "Webhook validation token secret")]);
          (u "git_repo_url_secret", VDict [(u "type", str "secret_uri"); (u "description", str "Repository URL secret")]);
          (u "cloud_provider", VDict [
            (u "type", str "string");
            (u "values", VList [str "yandex"; str "aws"]);
            (u "description", str "Target cloud")
          ]);
          (u "region", VDict [(u "type", str "string"); (u "description", str "Cloud region")]);
          (u "runner_type", VDict [(u "type", str "string"); (u "values", VList [str "serverless"; str "apex"; str "nadir"])])
        ]);
        (u "optional_attributes", VDict [
          (u "tags", VDict [(u "type", str "list(string)"); (u "description", str "GitLab runner tags")]);
          (u "cpu", VDict [(u "type", str "cpu"); (u "default", str "1")]);
          (u "memory", VDict [(u "type", str "memory"); (u "default", str "512MB")]);
          (u "max_concurrent_jobs", VDict [(u "type", str "number"); (u "default", VInt 1)]);
          (u "runner_image", VDict [(u "type", str "string"); (u "description", str "Container image for the runner")]);
          (u "environment", VDict [(u "type", str "list(string)"); (u "description", str "Extra environment variables")])
        ])
      ]);
      (u "eggsbucket", VDict [
        (u "location", str "Eggs/<name>/config.fly");
        (u "description", str "Group of GitLab projects sharing a single runner configuration.");
        (u "required_attributes", VDict [
          (u "gitlab_server", VDict [(u "type", str "string")]);
          (u "group_id", VDict [(u "type", str "number"); (u "description", str "GitLab group ID")]);
          (u "gitlab_token_secret", VDict [(u "type", str "secret_uri")]);
          (u "gitlab_webhook_secret", VDict [(u "type", str "secret_uri")]);
          (u "cloud_provider", VDict [(u "type", str "string"); (u "values", VList [str "yandex"; str "aws"])]);
          (u "region", VDict [(u "type", str "string")]);
          (u "runner_type", VDict [(u "type", str "string"); (u "values", VList [str "serverless"; str "apex"; str "nadir"])])
        ]);
        (u "optional_attributes", VDict [
          (u "tags", VDict [(u "type", str "list(string)")]);
          (u "cpu", VDict [(u "type", str "cpu")]);
          (u "memory", VDict [(u "type", str "memory")]);
          (u "project_ids", VDict [
            (u "type", str "list(number)");
            (u "description", str "Explicit project IDs within the group")
          ])
        ])
      ]);
      (u "job", VDict [
        (u "location", str "Jobs/<name>.fly");
        (u "description", str "Internal self-management task run on a dedicated runner.");
        (u "required_attributes", VDict [
          (u "schedule", VDict [(u "type", str "cron"); (u "description", str "Cron schedule for the job")]);
          (u "script", VDict [(u "type", str "string"); (u "description", str "Shell script or command to execute")]);
          (u "cloud_provider", VDict [(u "type", str "string"); (u "values", VList [str "yandex"; str "aws"])]);
          (u "region", VDict [(u "type", str "string")])
        ]);
        (u "optional_attributes", VDict [
          (u "runner_image", VDict [(u "type", str "string")]);
          (u "cpu", VDict [(u "type", str "cpu")]);
          (u "memory", VDict [(u "type", str "memory")]);
          (u "timeout", VDict [(u "type", str "duration"); (u "default", str "1h")]);
          (u "environment", VDict [(u "type", str "list(string)")]);
          (u "secrets", VDict [(u "type", str "list(secret_uri)"); (u "description", str "Secrets to inject as env vars")])
        ])
      ]);
      (u "uglyfox", VDict [
        (u "location", str "UF/config.fly");
        (u "description", str "UglyFox lifecycle and pruning configuration.");
        (u "nested_blocks", VList [str "pruning"; str "apex_pool"; str "nadir_pool"; str "runners_condition"])
      ]);
      (u "mothergoose", VDict [
        (u "location", str "MG/config.fly");
        (u "description", str "MotherGoose infrastructure configuration: API Gateway, queues, triggers, containers.");
        (u "nested_blocks", VList [str "api_gateway"; str "message_queue"; str "cloud_trigger"; str "container"])
      ])
    ]);
    (u "validation_error_format", VDict [
      (u "description", str "Validation errors are returned as JSON when using --format json flag.");
      (u "schema", VDict [
        (u "file", VStr (u "string " ++ em_dash ++ u " path to the .fly file"));
        (u "errors", VList [
          VDict [
            (u "line", str "number");
            (u "column", str "number");
            (u "severity", str "error | warning");
            (u "code", VStr (u "string " ++ em_dash ++ u " error code (e.g. MISSING_REQUIRED, INVALID_TYPE, INVALID_SECRET_URI)"));
            (u "message", VStr (u "string " ++ em_dash ++ u " human-readable description"));
            (u "attribute", VStr (u "string " ++ em_dash ++ u " attribute name that failed"))
          ]
        ])
      ])
    ])
  ].

(** [FLY_EXAMPLES], from data/gosling.py. *)
Definition FLY_EXAMPLES : value :=
  VDict [
    (u "egg_yandex_serverless", VStr (nl
          ++ u "# Eggs/my-service/config.fly" ++ nl
          ++ u "egg " ++ dq ++ u "my-service" ++ dq ++ u " {" ++ nl
          ++ u "  gitlab_server         = " ++ dq ++ u "https://gitlab.com" ++ dq ++ nl
          ++ u "  project_id            = 12345" ++ nl
          ++ u "  gitlab_token_secret   = " ++ dq ++ u "yc-lockbox://abc123def456/runner-token" ++ dq ++ nl
          ++ u "  gitlab_webhook_secret = " ++ dq ++ u "yc-lockbox://abc123def456/webhook-secret" ++ dq ++ nl
          ++ u "  git_repo_url_secret   = " ++ dq ++ u "yc-lockbox://abc123def456/repo-url" ++ dq ++ nl
          ++ nl
          ++ u "  cloud_provider = " ++ dq ++ u "yandex" ++ dq ++ nl
          ++ u "  region         = " ++ dq ++ u "ru-central1" ++ dq ++ nl
          ++ u "  runner_type    = " ++ dq ++ u "serverless" ++ dq ++ nl
          ++ nl
          ++ u "  tags   = [" ++ dq ++ u "docker" ++ dq ++ u ", " ++ dq ++ u "linux" ++ dq ++ u ", " ++ dq ++ u "yandex" ++ dq ++ u "]" ++ nl
          ++ u "  cpu    = 1" ++ nl
          ++ u "  memory = " ++ dq ++ u "512MB" ++ dq ++ nl
          ++ u "  max_concurrent_jobs = 2" ++ nl
          ++ u "}" ++ nl));
    (u "eggsbucket_aws", VStr (nl
          ++ u "# Eggs/platform-team/config.fly" ++ nl
          ++ u "eggsbucket " ++ dq ++ u "platform-team" ++ dq ++ u " {" ++ nl
          ++ u "  gitlab_server         = " ++ dq ++ u "https://gitlab.example.com" ++ dq ++ nl
          ++ u "  group_id              = 999" ++ nl
          ++ u "  gitlab_token_secret   = " ++ dq ++ u "aws-sm://prod/platform-runner-token/value" ++ dq ++ nl
          ++ u "  gitlab_webhook_secret = " ++ dq ++ u "aws-sm://prod/platform-webhook-secret/value" ++ dq ++ nl
          ++ nl
          ++ u "  cloud_provider = " ++ dq ++ u "aws" ++ dq ++ nl
          ++ u "  region         = " ++ dq ++ u "us-east-1" ++ dq ++ nl
          ++ u "  runner_type    = " ++ dq ++ u "apex" ++ dq ++ nl
          ++ nl
          ++ u "  tags       = [" ++ dq ++ u "docker" ++ dq ++ u ", " ++ dq ++ u "linux" ++ dq ++ u ", " ++ dq ++ u "aws" ++ dq ++ u "]" ++ nl
          ++ u "  cpu        = 2" ++ nl
          ++ u "  memory     = " ++ dq ++ u "1GB" ++ dq ++ nl
          ++ u "  project_ids = [101, 102, 103]" ++ nl
          ++ u "}" ++ nl));
    (u "job_secret_rotation", VStr (nl
          ++ u "# Jobs/rotate-secrets.fly" ++ nl
          ++ u "job " ++ dq ++ u "rotate-secrets" ++ dq ++ u " {" ++ nl
          ++ u "  schedule       = " ++ dq ++ u "0 2 * * 0" ++ dq ++ u "  # Every Sunday at 2am" ++ nl
          ++ u "  cloud_provider = " ++ dq ++ u "yandex" ++ dq ++ nl
          ++ u "  region         = " ++ dq ++ u "ru-central1" ++ dq ++ nl
          ++ u "  runner_image   = " ++ dq ++ u "registry.example.com/tools/secret-rotator:latest" ++ dq ++ nl
          ++ u "  cpu            = 0.5" ++ nl
          ++ u "  memory         = " ++ dq ++ u "256MB" ++ dq ++ nl
          ++ u "  timeout        = " ++ dq ++ u "30m" ++ dq ++ nl
          ++ nl
          ++ u "  script = <<-EOT" ++ nl
          ++ u "    #!/bin/bash" ++ nl
          ++ u "    set -euo pipefail" ++ nl
          ++ u "    python3 /app/rotate.py --all" ++ nl
          ++ u "  EOT" ++ nl
          ++ nl
          ++ u "  secrets = [" ++ nl
          ++ u "    " ++ dq ++ u "yc-lockbox://abc123/rotation-key" ++ dq ++ u "," ++ nl
          ++ u "  ]" ++ nl
          ++ u "}" ++ nl));
    (u "uglyfox_config", VStr (nl
          ++ u "# UF/config.fly" ++ nl
          ++ u "uglyfox {" ++ nl
          ++ u "  pruning {" ++ nl
          ++ u "    max_age_hours          = 72" ++ nl
          ++ u "    max_failures           = 5" ++ nl
          ++ u "    idle_timeout_minutes   = 30" ++ nl
          ++ u "    check_interval_seconds = 60" ++ nl
          ++ u "  }" ++ nl
          ++ nl
          ++ u "  apex_pool {" ++ nl
          ++ u "    min_size           = 1" ++ nl
          ++ u "    max_size           = 10" ++ nl
          ++ u "    scale_up_threshold = 5" ++ nl
          ++ u "  }" ++ nl
          ++ nl
          ++ u "  nadir_pool {" ++ nl
          ++ u "    min_size            = 0" ++ nl
          ++ u "    max_size            = 5" ++ nl
          ++ u "    warmup_time_seconds = 30" ++ nl
          ++ u "  }" ++ nl
          ++ nl
          ++ u "  runners_condition {" ++ nl
          ++ u "    egg_name     = " ++ dq ++ u "my-service" ++ dq ++ nl
          ++ u "    max_failures = 3" ++ nl
          ++ u "    max_age_hours = 24" ++ nl
          ++ u "  }" ++ nl
          ++ u "}" ++ nl));
    (u "mothergoose_config", VStr (nl
          ++ u "# MG/config.fly" ++ nl
          ++ u "mothergoose {" ++ nl
          ++ u "  api_gateway {" ++ nl
          ++ u "    cloud_provider = " ++ dq ++ u "yandex" ++ dq ++ nl
          ++ u "    region         = " ++ dq ++ u "ru-central1" ++ dq ++ nl
          ++ u "    domain         = " ++ dq ++ u "mg.example.com" ++ dq ++ nl
          ++ u "    tls             = true" ++ nl
          ++ u "  }" ++ nl
          ++ nl
          ++ u "  message_queue {" ++ nl
          ++ u "    cloud_provider = " ++ dq ++ u "yandex" ++ dq ++ nl
          ++ u "    queue_name     = " ++ dq ++ u "polar-gosling-tasks" ++ dq ++ nl
          ++ u "  }" ++ nl
          ++ nl
          ++ u "  cloud_trigger {" ++ nl
          ++ u "    type     = " ++ dq ++ u "timer" ++ dq ++ nl
          ++ u "    schedule = " ++ dq ++ u "*/5 * * * *" ++ dq ++ u "  # Every 5 minutes" ++ nl
          ++ u "    target   = " ++ dq ++ u "/internal/sync-git" ++ dq ++ nl
          ++ u "  }" ++ nl
          ++ nl
          ++ u "  container {" ++ nl
          ++ u "    image  = " ++ dq ++ u "registry.example.com/polar-gosling/mothergoose:latest" ++ dq ++ nl
          ++ u "    cpu    = 1" ++ nl
          ++ u "    memory = " ++ dq ++ u "512MB" ++ dq ++ nl
          ++ u "    min_instances = 1" ++ nl
          ++ u "    max_instances = 5" ++ nl
          ++ u "  }" ++ nl
          ++ u "}" ++ nl))
  ].

(** ** Constants of data/compute_module.py *)

(** [COMPUTE_MODULE_VARIABLES], from data/compute_module.py. *)
Definition COMPUTE_MODULE_VARIABLES : value :=
  VDict [
    (u "aws", VList [
      VDict [
        (u "name", str "create_aws_resources");
        (u "type", str "bool");
        (u "default", VBool false);
        (u "description", str "Enable AWS resource creation")
      ];
      VDict [
        (u "name", str "aws_runner_type");
        (u "type", str "string");
        (u "values", VList [str "ec2"; str "ecs"]);
        (u "description", str "AWS runner deployment type: EC2 VM or ECS Fargate")
      ];
      VDict [
        (u "name", str "aws_region");
        (u "type", str "string");
        (u "description", str "AWS region (e.g. us-east-1)")
      ];
      VDict [
        (u "name", str "aws_instance_type");
        (u "type", str "string");
        (u "default", str "t3.medium");
        (u "description", str "EC2 instance type (ec2 runner only)")
      ];
      VDict [
        (u "name", str "aws_ami_ssm_param");
        (u "type", str "string");
        (u "description", str "SSM parameter path for the runner AMI ID")
      ];
      VDict [
        (u "name", str "aws_subnet_id");
        (u "type", str "string");
        (u "description", str "VPC subnet ID for EC2/ECS placement")
      ];
      VDict [
        (u "name", str "aws_security_group_ids");
        (u "type", str "list(string)");
        (u "description", str "Security group IDs to attach")
      ];
      VDict [
        (u "name", str "aws_iam_instance_profile");
        (u "type", str "string");
        (u "description", str "IAM instance profile ARN for EC2")
      ];
      VDict [
        (u "name", str "aws_ecs_cluster_arn");
        (u "type", str "string");
        (u "description", str "ECS cluster ARN (ecs runner only)")
      ];
      VDict [
        (u "name", str "aws_ecs_task_cpu");
        (u "type", str "number");
        (u "default", VInt 512);
        (u "description", str "ECS task CPU units (256/512/1024/2048/4096)")
      ];
      VDict [
        (u "name", str "aws_ecs_task_memory");
        (u "type", str "number");
        (u "default", VInt 1024);
        (u "description", str "ECS task memory in MiB")
      ];
      VDict [
        (u "name", str "aws_container_image");
        (u "type", str "string");
        (u "description", str "Container image URI for ECS runner")
      ];
      VDict [
        (u "name", str "aws_runner_name");
        (u "type", str "string");
        (u "description", str "GitLab runner name tag")
      ];
      VDict [
        (u "name", str "aws_tags");
        (u "type", str "map(string)");
        (u "default", VDict []);
        (u "description", str "Additional AWS resource tags")
      ];
      VDict [
        (u "name", str "aws_key_pair_name");
        (u "type", str "string");
        (u "default", VStr ([]));
        (u "description", str "EC2 key pair name for SSH access")
      ];
      VDict [
        (u "name", str "aws_root_volume_size");
        (u "type", str "number");
        (u "default", VInt 20);
        (u "description", str "EC2 root EBS volume size in GB")
      ]
    ]);
    (u "yandex_cloud", VList [
      VDict [
        (u "name", str "create_yc_resources");
        (u "type", str "bool");
        (u "default", VBool false);
        (u "description", str "Enable Yandex Cloud resource creation")
      ];
      VDict [
        (u "name", str "yc_runner_type");
        (u "type", str "string");
        (u "values", VList [str "vm"; str "serverless"]);
        (u "description", str "YC runner type: Compute VM or Serverless Container")
      ];
      VDict [
        (u "name", str "yc_folder_id");
        (u "type", str "string");
        (u "description", str "Yandex Cloud folder ID")
      ];
      VDict [
        (u "name", str "yc_zone");
        (u "type", str "string");
        (u "default", str "ru-central1-a");
        (u "description", str "Availability zone")
      ];
      VDict [(u "name", str "yc_subnet_id"); (u "type", str "string"); (u "description", str "VPC subnet ID")];
      VDict [
        (u "name", str "yc_platform_id");
        (u "type", str "string");
        (u "default", str "standard-v3");
        (u "description", str "VM platform (standard-v1/v2/v3)")
      ];
      VDict [
        (u "name", str "yc_cores");
        (u "type", str "number");
        (u "default", VInt 2);
        (u "description", str "Number of vCPUs for VM")
      ];
      VDict [
        (u "name", str "yc_memory");
        (u "type", str "number");
        (u "default", VInt 2);
        (u "description", str "RAM in GB for VM")
      ];
      VDict [
        (u "name", str "yc_core_fraction");
        (u "type", str "number");
        (u "default", VInt 100);
        (u "description", str "CPU core fraction % (20/50/100)")
      ];
      VDict [
        (u "name", str "yc_disk_size");
        (u "type", str "number");
        (u "default", VInt 20);
        (u "description", str "Boot disk size in GB")
      ];
      VDict [
        (u "name", str "yc_disk_type");
        (u "type", str "string");
        (u "default", str "network-ssd");
        (u "description", str "Disk type (network-hdd/network-ssd)")
      ];
      VDict [
        (u "name", str "yc_image_family");
        (u "type", str "string");
        (u "default", str "ubuntu-2204-lts");
        (u "description", str "OS image family")
      ];
      VDict [
        (u "name", str "yc_container_image");
        (u "type", str "string");
        (u "description", str "Container image for Serverless Container")
      ];
      VDict [
        (u "name", str "yc_serverless_memory");
        (u "type", str "number");
        (u "default", VInt 512);
        (u "description", str "Serverless Container memory in MB")
      ];
      VDict [
        (u "name", str "yc_serverless_cores");
        (u "type", str "number");
        (u "default", VInt 1);
        (u "description", str "Serverless Container vCPU count")
      ];
      VDict [
        (u "name", str "yc_service_account_id");
        (u "type", str "string");
        (u "description", str "Service account ID for the runner")
      ];
      VDict [
        (u "name", str "yc_runner_name");
        (u "type", str "string");
        (u "description", str "Resource name prefix")
      ];
      VDict [
        (u "name", str "yc_labels");
        (u "type", str "map(string)");
        (u "default", VDict []);
        (u "description", str "Yandex Cloud resource labels")
      ];
      VDict [
        (u "name", str "yc_ssh_public_key");
        (u "type", str "string");
        (u "default", VStr ([]));
        (u "description", str "SSH public key for VM access")
      ];
      VDict [
        (u "name", str "yc_user_data");
        (u "type", str "string");
        (u "default", VStr ([]));
        (u "description", str "Cloud-init user data script")
      ]
    ]);
    (u "common", VList [
      VDict [
        (u "name", str "gitlab_runner_token");
        (u "type", str "string");
        (u "sensitive", VBool true);
        (u "description", str "GitLab runner registration token")
      ];
      VDict [
        (u "name", str "gitlab_server_url");
        (u "type", str "string");
        (u "default", str "https://gitlab.com");
        (u "description", str "GitLab instance URL")
      ];
      VDict [
        (u "name", str "runner_tags");
        (u "type", str "list(string)");
        (u "default", VList []);
        (u "description", str "GitLab runner tags")
      ];
      VDict [
        (u "name", str "runner_concurrent");
        (u "type", str "number");
        (u "default", VInt 1);
        (u "description", str "Max concurrent jobs per runner")
      ];
      VDict [
        (u "name", str "random_suffix_length");
        (u "type", str "number");
        (u "default", VInt 6);
        (u "description", str "Length of random suffix appended to resource names")
      ]
    ])
  ].

(** [COMPUTE_MODULE_OUTPUTS], from data/compute_module.py. *)
Definition COMPUTE_MODULE_OUTPUTS : value :=
  VList [
    VDict [
      (u "name", str "hostname");
      (u "type", str "string");
      (u "description", str "Public DNS hostname of the deployed runner. For EC2: public DNS name. For YC VM: FQDN. For serverless: container endpoint URL.");
      (u "sensitive", VBool false)
    ];
    VDict [
      (u "name", str "public_ip");
      (u "type", str "string");
      (u "description", str "Public IP address of the runner. Empty string for serverless runners that have no static IP.");
      (u "sensitive", VBool false)
    ];
    VDict [
      (u "name", str "private_ip");
      (u "type", str "string");
      (u "description", str "Private IP address within the VPC/subnet. Available for both VM and ECS task runners.");
      (u "sensitive", VBool false)
    ];
    VDict [
      (u "name", str "id");
      (u "type", str "string");
      (u "description", str "Cloud resource ID. EC2: instance ID (i-xxx). ECS: task ARN. YC VM: instance ID. YC Serverless: container ID.");
      (u "sensitive", VBool false)
    ]
  ].

(** [COMPUTE_MODULE_PROVIDERS], from data/compute_module.py. *)
Definition COMPUTE_MODULE_PROVIDERS : value :=
  VDict [
    (u "required_providers", VDict [
      (u "yandex", VDict [
        (u "source", str "yandex-cloud/yandex");
        (u "version", str ">= 0.170.0");
        (u "description", str "Yandex Cloud provider for VM and Serverless Container resources")
      ]);
      (u "aws", VDict [
        (u "source", str "hashicorp/aws");
        (u "version", str ">= 4.66");
        (u "description", str "AWS provider for EC2 and ECS resources")
      ]);
      (u "random", VDict [
        (u "source", str "hashicorp/random");
        (u "version", str ">= 3.4.3");
        (u "description", str "Used to generate unique resource name suffixes")
      ])
    ]);
    (u "terraform_required_version", str ">= 1.3.5");
    (u "opentofu_compatible", VBool true);
    (u "notes", VList [
      str "Both aws and yandex providers are always declared but only activated when create_aws_resources or create_yc_resources is true.";
      str "The random provider generates a suffix appended to all resource names to avoid collisions.";
      str "Provider credentials are expected via standard env vars: AWS_ACCESS_KEY_ID/AWS_SECRET_ACCESS_KEY or YC_TOKEN/YC_SERVICE_ACCOUNT_KEY_FILE."
    ]);
    (u "test_suites", VList [
      str "tests/tests_aws_ecs_base/";
      str "tests/tests_aws_vm_base/";
      str "tests/tests_yc_serverless_base/";
      str "tests/tests_yc_vm_base/"
    ])
  ].


(** * Values that round-trip through JSON *)

(** A Unicode scalar value: a code point that is not a surrogate. The
    decoder joins an escaped high surrogate with an escaped low one that
    follows it, so a [str] holding the two as separate code points is not
    read back as it was written. *)
Definition scalar (c : N) : bool :=
  (c <? 55296) || ((57343 <? c) && (c <? 1114112)).

Definition str_ok (s : pystr) : bool := forallb scalar s.

Fixpoint keys_distinct (ks : list pystr) : bool :=
  match ks with
  | [] => true
  | k :: r => negb (existsb (Json.str_eqb k) r) && keys_distinct r
  end.

(** Every [str] is made of scalar values and the keys of every [dict] are
    pairwise different (as they are in any Python [dict]). *)
Fixpoint well_formed (v : value) : bool :=
  match v with
  | VNone | VBool _ | VInt _ => true
  | VStr s => str_ok s
  | VList l => forallb well_formed l
  | VDict d =>
      keys_distinct (List.map fst d)
      && forallb (fun kv => str_ok (fst kv) && well_formed (snd kv)) d
  end.

(** What follows a value inside the encoder's output: a comma, a line
    break, or nothing. *)
Definition delimited (rest : pystr) : Prop :=
  match rest with
  | [] => True
  | c :: _ => c = 44 \/ c = 10
  end.

(** The characters an encoded value can begin with. *)
Definition value_start (c : N) : bool :=
  (c =? 34) || (c =? 123) || (c =? 91) || (c =? 110) || (c =? 116)
  || (c =? 102) || (c =? 45) || Json.is_digit c.

(** Depth of recursion that reads a value back from its text. *)
Fixpoint fuel_for (v : value) : nat :=
  match v with
  | VNone | VBool _ | VInt _ | VStr _ => 1
  | VList l => S (list_sum (List.map (fun x => S (fuel_for x)) l))
  | VDict d => S (list_sum (List.map (fun kv => S (fuel_for (snd kv))) d))
  end.

(** * MCP/server.py *)

(** ** The import statements *)

Inductive import_stmt : Type :=
| Import (module : pystr)
| FromImport (module : pystr) (names : list pystr).

Inductive load_error : Type :=
| ModuleNotFoundError (module : pystr)
| ImportError (module name : pystr).

(** The modules that can be found, each with the names it binds. *)
Abbreviation module_table := (list (pystr * list pystr)).

Definition find_module (mods : module_table) (m : pystr) : option (list pystr) :=
  match List.find (fun e => Json.str_eqb (fst e) m) mods with
  | Some e => Some (snd e)
  | None => None
  end.

(** One import statement against the module table. The table is flat: a
    module is looked up by its full dotted name and carries the names it
    binds; the parent packages of a module and the import statements of
    the imported module itself are not followed. *)
Definition exec_import (mods : module_table) (st : import_stmt) : option load_error :=
  match st with
  | Import m =>
      match find_module mods m with
      | Some _ => None
      | None => Some (ModuleNotFoundError m)
      end
  | FromImport m names =>
      match find_module mods m with
      | None => Some (ModuleNotFoundError m)
      | Some bound =>
          match List.find (fun n => negb (existsb (Json.str_eqb n) bound)) names with
          | Some n => Some (ImportError m n)
          | None => None
          end
      end
  end.

(** The statements run in order; the first that raises ends the load. *)
Fixpoint exec_imports (mods : module_table) (sts : list import_stmt) : option load_error :=
  match sts with
  | [] => None
  | st :: rest =>
      match exec_import mods st with
      | Some e => Some e
      | None => exec_imports mods rest
      end
  end.

(** The modules of the package [data], with their top-level names. *)
Definition data_package : module_table := [
  (u "data.mothergoose",
   [u "Any"; u "MOTHERGOOSE_API_ENDPOINTS"; u "MOTHERGOOSE_CELERY_TASKS";
    u "MOTHERGOOSE_MODELS"; u "MOTHERGOOSE_SERVICES"; u "MOTHERGOOSE_ENV_VARS"]);
  (u "data.uglyfox",
   [u "Any"; u "UGLYFOX_CELERY_TASKS"; u "UGLYFOX_CONFIG_SCHEMA"; u "UGLYFOX_ENV_VARS"]);
  (u "data.gosling",
   [u "Any"; u "GOSLING_COMMANDS"; u "FLY_LANGUAGE_REFERENCE"; u "FLY_EXAMPLES"]);
  (u "data.compute_module",
   [u "Any"; u "COMPUTE_MODULE_VARIABLES"; u "COMPUTE_MODULE_OUTPUTS";
    u "COMPUTE_MODULE_PROVIDERS"]);
  (u "data.kiro",
   [u "STEERING_PRODUCT"; u "STEERING_STRUCTURE"; u "STEERING_TECH"])
].

(** The standard library and the [mcp] package, taken as installed. *)
Definition installed : module_table := [
  (u "json", [u "dumps"; u "loads"]);
  (u "mcp.server", [u "Server"]);
  (u "mcp.server.stdio", [u "stdio_server"]);
  (u "mcp.types", [u "Tool"; u "TextContent"])
].

Definition server_imports : list import_stmt := [
  Import (u "json");
  FromImport (u "mcp.server") [u "Server"];
  FromImport (u "mcp.server.stdio") [u "stdio_server"];
  FromImport (u "mcp.types") [u "Tool"; u "TextContent"];
  FromImport (u "data.mothergoose")
    [u "MOTHERGOOSE_API_ENDPOINTS"; u "MOTHERGOOSE_CELERY_TASKS"; u "MOTHERGOOSE_MODELS";
     u "MOTHERGOOSE_SERVICES"; u "MOTHERGOOSE_ENV_VARS"];
  FromImport (u "data.uglyfox")
    [u "UGLYFOX_CELERY_TASKS"; u "UGLYFOX_CONFIG_SCHEMA"; u "UGLYFOX_ENV_VARS"];
  FromImport (u "data.gosling")
    [u "GOSLING_COMMANDS"; u "FLY_LANGUAGE_REFERENCE"; u "FLY_EXAMPLES"];
  FromImport (u "data.compute_module")
    [u "COMPUTE_MODULE_VARIABLES"; u "COMPUTE_MODULE_OUTPUTS"; u "COMPUTE_MODULE_PROVIDERS"];
  FromImport (u "data.cross_cutting")
    [u "SECRET_URI_SCHEMES"; u "DATABASE_SCHEMA"; u "ARCHITECTURE_OVERVIEW"]
].

(** Loading [server.py]: its import statements, which come before
    everything else in the file. *)
Definition load_server (mods : module_table) : option load_error :=
  exec_imports mods server_imports.

(** ** The catalog and the dispatch table *)

(** [mcp.types.Tool] and [mcp.types.TextContent], with the fields the
    server sets. *)
Record Tool : Type := {
  name : pystr;
  description : pystr;
  inputSchema : value
}.

Record TextContent : Type := {
  type : pystr;
  text : pystr
}.

Definition TOOLS : list Tool := [
  {| name := u "get_mothergoose_api_endpoints";
     description := u "List all MotherGoose REST API endpoints with methods, paths, descriptions, and auth requirements.";
     inputSchema := VDict [(u "type", str "object"); (u "properties", VDict []); (u "required", VList [])] |};
  {| name := u "get_mothergoose_celery_tasks";
     description := u "List all MotherGoose Celery tasks with names, queues, priorities, and descriptions.";
     inputSchema := VDict [(u "type", str "object"); (u "properties", VDict []); (u "required", VList [])] |};
  {| name := u "get_mothergoose_models";
     description := u "Get Pydantic model schemas for Runner, EggConfig, SyncHistory, DeploymentPlan, AuditLog.";
     inputSchema := VDict [(u "type", str "object"); (u "properties", VDict []); (u "required", VList [])] |};
  {| name := u "get_mothergoose_services";
     description := u "List all MotherGoose service classes with their responsibilities and key methods.";
     inputSchema := VDict [(u "type", str "object"); (u "properties", VDict []); (u "required", VList [])] |};
  {| name := u "get_mothergoose_env_vars";
     description := u "Get all MOTHERGOOSE_* environment variable definitions with types and descriptions.";
     inputSchema := VDict [(u "type", str "object"); (u "properties", VDict []); (u "required", VList [])] |};
  {| name := u "get_uglyfox_celery_tasks";
     description := u "List all UglyFox Celery tasks: health checks, pruning, lifecycle management.";
     inputSchema := VDict [(u "type", str "object"); (u "properties", VDict []); (u "required", VList [])] |};
  {| name := u "get_uglyfox_config_schema";
     description := u "Get the UF/config.fly schema: pruning policies, runner conditions, Apex/Nadir pool rules.";
     inputSchema := VDict [(u "type", str "object"); (u "properties", VDict []); (u "required", VList [])] |};
  {| name := u "get_uglyfox_env_vars";
     description := u "Get all UGLYFOX_* environment variable definitions with types and descriptions.";
     inputSchema := VDict [(u "type", str "object"); (u "properties", VDict []); (u "required", VList [])] |};
  {| name := u "get_gosling_commands";
     description := u "Get all Gosling CLI commands with flags, usage patterns, and examples.";
     inputSchema := VDict [(u "type", str "object"); (u "properties", VDict []); (u "required", VList [])] |};
  {| name := u "get_fly_language_reference";
     description := u "Get the .fly language reference: block types, attributes, type system, and validation rules.";
     inputSchema := VDict [(u "type", str "object"); (u "properties", VDict []); (u "required", VList [])] |};
  {| name := u "get_fly_examples";
     description := u "Get example .fly files for egg, eggsbucket, job, uglyfox, and mothergoose blocks.";
     inputSchema := VDict [(u "type", str "object"); (u "properties", VDict []); (u "required", VList [])] |};
  {| name := u "get_compute_module_variables";
     description := u "Get all Terraform/OpenTofu input variables for the Compute Module (AWS + Yandex Cloud).";
     inputSchema := VDict [(u "type", str "object"); (u "properties", VDict []); (u "required", VList [])] |};
  {| name := u "get_compute_module_outputs";
     description := u "Get Compute Module output values: hostname, public_ip, private_ip, id.";
     inputSchema := VDict [(u "type", str "object"); (u "properties", VDict []); (u "required", VList [])] |};
  {| name := u "get_compute_module_providers";
     description := u "Get provider version constraints for the Compute Module (yandex, aws, random).";
     inputSchema := VDict [(u "type", str "object"); (u "properties", VDict []); (u "required", VList [])] |};
  {| name := u "get_secret_uri_schemes";
     description := u "Get secret URI scheme reference: yc-lockbox://, aws-sm://, vault:// formats and usage.";
     inputSchema := VDict [(u "type", str "object"); (u "properties", VDict []); (u "required", VList [])] |};
  {| name := u "get_database_schema";
     description := u "Get all YDB/DynamoDB table schemas: runners, egg_configs, sync_history, deployment_plans, audit_logs, tofu_versions, gosling_version.";
     inputSchema := VDict [(u "type", str "object"); (u "properties", VDict []); (u "required", VList [])] |};
  {| name := u "get_architecture_overview";
     description := u "Get a high-level architecture overview: system flow, services, deployment mechanisms, cloud targets.";
     inputSchema := VDict [(u "type", str "object"); (u "properties", VDict []); (u "required", VList [])] |}
].

(** A [dict] display [{k1: v1, ..., kn: vn}]: the items are stored from
    left to right, a later one replacing an earlier one with its key. *)
Definition dict_literal (items : list (pystr * value)) : gmap pystr value :=
  fold_left (fun m kv => <[fst kv := snd kv]> m) items ∅.

(** [d.get(key)], whose default is [None]. *)
Definition dict_get (d : gmap pystr value) (key : pystr) : value :=
  match d !! key with
  | Some v => v
  | None => VNone
  end.

(** The globals of the module that the handlers read. *)
Record globals : Type := {
  g_TOOLS : list Tool;
  g_DISPATCH : gmap pystr value
}.

(** A handler reads the globals and hands them on. *)
Definition handler (A : Type) : Type := globals -> A * globals.

Section Server.

(** The three constants of [data.cross_cutting]. The sources hold no
    such module, so the constants are left open here. *)
Variables SECRET_URI_SCHEMES DATABASE_SCHEMA ARCHITECTURE_OVERVIEW : value.

Definition _DISPATCH_items : list (pystr * value) := [
  (u "get_mothergoose_api_endpoints", MOTHERGOOSE_API_ENDPOINTS);
  (u "get_mothergoose_celery_tasks", MOTHERGOOSE_CELERY_TASKS);
  (u "get_mothergoose_models", MOTHERGOOSE_MODELS);
  (u "get_mothergoose_services", MOTHERGOOSE_SERVICES);
  (u "get_mothergoose_env_vars", MOTHERGOOSE_ENV_VARS);
  (u "get_uglyfox_celery_tasks", UGLYFOX_CELERY_TASKS);
  (u "get_uglyfox_config_schema", UGLYFOX_CONFIG_SCHEMA);
  (u "get_uglyfox_env_vars", UGLYFOX_ENV_VARS);
  (u "get_gosling_commands", GOSLING_COMMANDS);
  (u "get_fly_language_reference", FLY_LANGUAGE_REFERENCE);
  (u "get_fly_examples", FLY_EXAMPLES);
  (u "get_compute_module_variables", COMPUTE_MODULE_VARIABLES);
  (u "get_compute_module_outputs", COMPUTE_MODULE_OUTPUTS);
  (u "get_compute_module_providers", COMPUTE_MODULE_PROVIDERS);
  (u "get_secret_uri_schemes", SECRET_URI_SCHEMES);
  (u "get_database_schema", DATABASE_SCHEMA);
  (u "get_architecture_overview", ARCHITECTURE_OVERVIEW)
].

Definition _DISPATCH : gmap pystr value := dict_literal _DISPATCH_items.

Definition module_globals : globals :=
  {| g_TOOLS := TOOLS; g_DISPATCH := _DISPATCH |}.

End Server.

(** [list_tools()] *)
Definition list_tools : handler (list Tool) :=
  fun g => (g_TOOLS g, g).

(** [call_tool(name, arguments)] *)
Definition call_tool (name : pystr) (arguments : gmap pystr value) :
  handler (list TextContent) :=
  fun g =>
    let data := dict_get (g_DISPATCH g) name in
    match data with
    | VNone =>
        ([{| type := u "text"; text := u "Unknown tool: " ++ name |}], g)
    | _ =>
        ([{| type := u "text"; text := Json.dumps data |}], g)
    end.

(** A run of [call_tool] invocations, one after the other. *)
Fixpoint call_tools (calls : list (pystr * gmap pystr value)) (g : globals) :
  list (list TextContent) * globals :=
  match calls with
  | [] => ([], g)
  | (n, a) :: rest =>
      let '(r, g1) := call_tool n a g in
      let '(rs, g2) := call_tools rest g1 in
      (r :: rs, g2)
  end.

(** The constants that the data modules under [data/] define and
    [_DISPATCH] binds. *)
Definition data_constants : list value :=
  [MOTHERGOOSE_API_ENDPOINTS; MOTHERGOOSE_CELERY_TASKS; MOTHERGOOSE_MODELS;
   MOTHERGOOSE_SERVICES; MOTHERGOOSE_ENV_VARS; UGLYFOX_CELERY_TASKS;
   UGLYFOX_CONFIG_SCHEMA; UGLYFOX_ENV_VARS; GOSLING_COMMANDS;
   FLY_LANGUAGE_REFERENCE; FLY_EXAMPLES; COMPUTE_MODULE_VARIABLES;
   COMPUTE_MODULE_OUTPUTS; COMPUTE_MODULE_PROVIDERS].

(** [v is not None] *)
Definition is_not_None (v : value) : bool :=
  match v with
  | VNone => false
  | _ => true
  end.

(** The input schema every tool is declared with. *)
Definition empty_object_schema : value :=
  VDict [(u "type", str "object"); (u "properties", VDict []); (u "required", VList [])].

(** * Notions used to describe the handlers and the encoder *)

(** The answer of [call_tool] to a name it does not serve. *)
Definition unknown_tool (name : pystr) : list TextContent :=
  [{| type := u "text"; text := u "Unknown tool: " ++ name |}].

(** A printable ASCII character, from the space to the tilde. *)
Definition visible (c : N) : bool := (32 <=? c) && (c <=? 126).

(** A character of a text of lines of printable ASCII. *)
Definition ascii_text (c : N) : bool := (c =? 10) || visible c.

(** The text [s] with [k] more spaces at the start of every line but the
    first. *)
Definition reindent (k : nat) (s : pystr) : pystr :=
  flat_map (fun c => if c =? 10 then 10 :: repeat 32 k else [c]) s.

(** * The canonical text of a value, line by line

    The layout the text of [json.dumps(obj, indent=2)] is compared with. It
    is written on its own, as a list of lines, each with its nesting depth:
    - a scalar, an empty [list] and an empty [dict] take one line;
    - a container that is not empty opens on a line, closes on a line, and
      has its items in between, one level deeper, in their order (the items
      of a [dict] in insertion order);
    - every item but the last of a container ends with a comma;
    - the first line of a [dict] item begins with the key in quotes, a
      colon and a space;
    - a line is indented by two spaces per level of depth, and the lines
      are joined by line breaks. *)

(** A line: its depth and its content. *)
Definition line : Type := nat * pystr.

Definition deeper (ls : list line) : list line :=
  List.map (fun l => (S (fst l), snd l)) ls.

(** The key of a [dict] item goes on the first line of its value. *)
Definition keyed (key : pystr) (ls : list line) : list line :=
  match ls with
  | [] => []
  | l :: r => (fst l, key ++ snd l) :: r
  end.

(** A comma at the end of the last line. *)
Fixpoint followed_by_comma (ls : list line) : list line :=
  match ls with
  | [] => []
  | l :: r =>
      match r with
      | [] => [(fst l, snd l ++ [44])]
      | _ :: _ => l :: followed_by_comma r
      end
  end.

(** The lines of the items of a container, a comma after each but the last. *)
Fixpoint items_lines (blocks : list (list line)) : list line :=
  match blocks with
  | [] => []
  | b :: r =>
      match r with
      | [] => b
      | _ :: _ => followed_by_comma b ++ items_lines r
      end
  end.

Fixpoint canonical_lines (v : value) : list line :=
  match v with
  | VNone => [(O, u "null")]
  | VBool true => [(O, u "true")]
  | VBool false => [(O, u "false")]
  | VInt z => [(O, Json.intstr z)]
  | VStr s => [(O, Json.encode_basestring_ascii s)]
  | VList [] => [(O, u "[]")]
  | VList ((_ :: _) as l) =>
      (O, u "[")
        :: items_lines (List.map (fun x => deeper (canonical_lines x)) l)
        ++ [(O, u "]")]
  | VDict [] => [(O, u "{}")]
  | VDict ((_ :: _) as d) =>
      (O, u "{")
        :: items_lines
             (List.map (fun kv => keyed (Json.encode_basestring_ascii (fst kv) ++ u ": ")
                                    (deeper (canonical_lines (snd kv)))) d)
        ++ [(O, u "}")]
  end.

Definition render_line (l : line) : pystr :=
  repeat 32 (2 * fst l)%nat ++ snd l.

Fixpoint join_lines (ls : list pystr) : pystr :=
  match ls with
  | [] => []
  | l :: r =>
      match r with
      | [] => l
      | _ :: _ => l ++ 10 :: join_lines r
      end
  end.

Definition canonical_text (v : value) : pystr :=
  join_lines (List.map render_line (canonical_lines v)).

(** The lines [ls] laid out [level] levels deep, each after a line break. *)
Definition rest_text (level : nat) (ls : list line) : pystr :=
  flat_map (fun l => 10 :: repeat 32 (2 * (level + fst l))%nat ++ snd l) ls.

(** The lines [ls] laid out [level] levels deep, the first where the text
    stands. *)
Definition lines_text (level : nat) (ls : list line) : pystr :=
  match ls with
  | [] => []
  | l :: r => snd l ++ rest_text level r
  end.

(** * The model at work *)

(** The scenario of a registry that binds ["ping"] to [{"ok": True}]. *)
Example ping_scenario :
  let g := {| g_TOOLS := [{| name := u "ping"; description := u "ping";
                             inputSchema := empty_object_schema |}];
              g_DISPATCH := dict_literal [(u "ping", VDict [(u "ok", VBool true)])] |} in
  List.map name (fst (list_tools g)) = [u "ping"]
  /\ fst (call_tool (u "ping") ∅ g)
     = [{| type := u "text";
           text := u "{" ++ nl ++ u "  " ++ dq ++ u "ok" ++ dq ++ u ": true" ++ nl ++ u "}" |}]
  /\ fst (call_tool (u "missing") ∅ g)
     = [{| type := u "text"; text := u "Unknown tool: missing" |}].
Proof. repeat split; vm_compute; reflexivity. Qed.

(** Escapes of [ensure_ascii]: the quote, a character of the Basic
    Multilingual Plane, a line break, and a character beyond the plane,
    written as a surrogate pair. *)
Example encode_escapes :
  Json.encode_basestring_ascii (u "a" ++ dq ++ em_dash ++ nl ++ [128512])
  = dq ++ u "a\" ++ dq ++ u "\u2014\n\ud83d\ude00" ++ dq.
Proof. vm_compute. reflexivity. Qed.

Example dumps_nested :
  Json.dumps (VList [VInt (-305); VList []; VDict []; VNone])
  = u "[" ++ nl ++ u "  -305," ++ nl ++ u "  []," ++ nl ++ u "  {}," ++ nl
      ++ u "  null" ++ nl ++ u "]".
Proof. vm_compute. reflexivity. Qed.

(** A repeated key keeps its first place and its last value. *)
Example loads_repeated_key :
  Json.loads (u "{" ++ dq ++ u "a" ++ dq ++ u ": 1, " ++ dq ++ u "b" ++ dq ++ u ": [ ], "
                ++ dq ++ u "a" ++ dq ++ u " : 2}")
  = Some (VDict [(u "a", VInt 2); (u "b", VList [])]).
Proof. vm_compute. reflexivity. Qed.

Example loads_rejects :
  Json.loads (u "[1,]") = None /\ Json.loads (u "[01]") = None
  /\ Json.loads (u "nul") = None /\ Json.loads (u "[1.5]") = None.
Proof. repeat split; vm_compute; reflexivity. Qed.

(** Why [well_formed] asks for scalar values: the two halves of a
    surrogate pair, held as two code points, come back as one. *)
Example surrogate_halves_joined :
  Json.loads (Json.dumps (VStr [55357; 56832])) = Some (VStr [128512]).
Proof. vm_compute. reflexivity. Qed.

(** Why the bound values are asked not to be [None]: [call_tool] cannot
    tell a binding to [None] from no binding. *)
Example call_tool_None_binding :
  fst (call_tool (u "get_database_schema") ∅ (module_globals (VDict []) VNone (VDict [])))
  = [{| type := u "text"; text := u "Unknown tool: get_database_schema" |}].
Proof. vm_compute. reflexivity. Qed.

(** The canonical lines of a nested value, and the text they make. *)
Example canonical_lines_nested :
  canonical_lines
    (VDict [(u "ok", VBool true); (u "xs", VList [VInt 1; VList []; VDict [(u "a", VNone)]])])
  = [(0, u "{");
     (1, dq ++ u "ok" ++ dq ++ u ": true,");
     (1, dq ++ u "xs" ++ dq ++ u ": [");
     (2, u "1,");
     (2, u "[],");
     (2, u "{");
     (3, dq ++ u "a" ++ dq ++ u ": null");
     (2, u "}");
     (1, u "]");
     (0, u "}")]%nat.
Proof. vm_compute. reflexivity. Qed.

Example canonical_text_nested :
  canonical_text
    (VDict [(u "ok", VBool true); (u "xs", VList [VInt 1; VList []; VDict [(u "a", VNone)]])])
  = u "{" ++ nl
      ++ u "  " ++ dq ++ u "ok" ++ dq ++ u ": true," ++ nl
      ++ u "  " ++ dq ++ u "xs" ++ dq ++ u ": [" ++ nl
      ++ u "    1," ++ nl
      ++ u "    []," ++ nl
      ++ u "    {" ++ nl
      ++ u "      " ++ dq ++ u "a" ++ dq ++ u ": null" ++ nl
      ++ u "    }" ++ nl
      ++ u "  ]" ++ nl
      ++ u "}".
Proof. vm_compute. reflexivity. Qed.

(** * Facts about the JSON encoder and decoder *)

(** Linear arithmetic with division and remainder by constants. *)
Ltac dlia := zify; Z.to_euclidean_division_equations; lia.

(** Decides the comparisons of code points met in a goal. *)
Ltac cmp :=
  repeat match goal with
    | |- context [N.eqb ?a ?b] => destruct (N.eqb_spec a b)
    | |- context [N.leb ?a ?b] => destruct (N.leb_spec a b)
    | |- context [N.ltb ?a ?b] => destruct (N.ltb_spec a b)
    end; simpl; try reflexivity; try lia.

Module JsonFacts.
Import Json.

(** ** Escapes *)

Lemma hexval_hexdigit d : d < 16 -> hexval (hexdigit d) = Some d.
Proof.
  intros Hd. unfold hexval, hexdigit.
  destruct (N.ltb_spec d 10); cmp; f_equal; lia.
Qed.

Lemma decode_u_escape n :
  n < 65536 ->
  decode_uXXXX (hexdigit (n / 4096 mod 16)) (hexdigit (n / 256 mod 16))
               (hexdigit (n / 16 mod 16)) (hexdigit (n mod 16)) = Some n.
Proof.
  intros Hn. unfold decode_uXXXX.
  rewrite !hexval_hexdigit by dlia. f_equal. dlia.
Qed.

Lemma lor_disjoint a b k : b < 2 ^ k -> N.lor (a * 2 ^ k) b = a * 2 ^ k + b.
Proof.
  intros Hb. destruct (N.eq_dec b 0) as [->|Hnz].
  { now rewrite N.lor_0_r, N.add_0_r. }
  assert (Hland : N.land (a * 2 ^ k) b = 0).
  { apply N.bits_inj; intros i. rewrite N.land_spec, N.bits_0.
    destruct (N.lt_ge_cases i k) as [Hi|Hi].
    - now rewrite N.mul_pow2_bits_low.
    - rewrite (N.bits_above_log2 b i), Bool.andb_false_r; [reflexivity|].
      apply N.lt_le_trans with k; [|assumption].
      apply N.log2_lt_pow2; lia. }
  now rewrite N.add_nocarry_lxor, N.lxor_lor.
Qed.

(** The two halves of a surrogate pair, as [escape_char] computes them. *)
Lemma high_half n :
  n < 1048576 ->
  N.lor 55296 (N.land (N.shiftr n 10) 1023) = 55296 + n / 1024.
Proof.
  intros Hn. change 1023 with (N.ones 10). rewrite N.land_ones, N.shiftr_div_pow2.
  change (2 ^ 10) with 1024. rewrite N.mod_small by dlia.
  change 55296 with (54 * 2 ^ 10). apply lor_disjoint.
  change (2 ^ 10) with 1024. dlia.
Qed.

Lemma low_half n :
  N.lor 56320 (N.land n 1023) = 56320 + n mod 1024.
Proof.
  change 1023 with (N.ones 10). rewrite N.land_ones.
  change (2 ^ 10) with 1024.
  change 56320 with (55 * 2 ^ 10). apply lor_disjoint.
  change (2 ^ 10) with 1024. dlia.
Qed.

Lemma join_halves n :
  n < 1048576 ->
  N.lor (N.shiftl (55296 + n / 1024 - 55296) 10) (56320 + n mod 1024 - 56320) = n.
Proof.
  intros Hn. rewrite N.shiftl_mul_pow2.
  replace (55296 + n / 1024 - 55296) with (n / 1024) by dlia.
  replace (56320 + n mod 1024 - 56320) with (n mod 1024) by dlia.
  rewrite lor_disjoint; change (2 ^ 10) with 1024; dlia.
Qed.

(** ** Strings *)

Lemma scanstring_plain c k :
  c <> 34 -> c <> 92 -> 32 <= c ->
  scanstring (c :: k) = cons_char c (scanstring k).
Proof.
  intros H1 H2 H3. cbn [scanstring].
  destruct (N.eqb_spec c 34); [lia|]. destruct (N.eqb_spec c 92); [lia|].
  destruct (N.ltb_spec c 32); [lia|]. reflexivity.
Qed.

Lemma scanstring_backslash e ch k :
  e <> 117 -> backslash e = Some ch ->
  scanstring (92 :: e :: k) = cons_char ch (scanstring k).
Proof.
  intros H1 H2. cbn [scanstring]. change (92 =? 34) with false.
  change (92 =? 92) with true. cbn iota.
  destruct (N.eqb_spec e 117); [lia|]. now rewrite H2.
Qed.

Lemma scanstring_u_escape n k :
  n < 65536 -> is_high_surrogate n = false ->
  scanstring (u_escape n ++ k) = cons_char n (scanstring k).
Proof.
  intros Hn Hs. unfold u_escape. cbn [app scanstring].
  change (92 =? 34) with false. change (92 =? 92) with true.
  change (117 =? 117) with true. cbn iota.
  now rewrite decode_u_escape, Hs.
Qed.

Lemma scanstring_u_escape_pair n k :
  n < 1048576 ->
  scanstring (u_escape (55296 + n / 1024) ++ u_escape (56320 + n mod 1024) ++ k)
  = cons_char (65536 + n) (scanstring k).
Proof.
  intros Hn. unfold u_escape. cbn [app scanstring].
  change (92 =? 34) with false. change (92 =? 92) with true.
  change (117 =? 117) with true. cbn iota.
  rewrite decode_u_escape by dlia.
  assert (Hh : is_high_surrogate (55296 + n / 1024) = true).
  { unfold is_high_surrogate. apply andb_true_intro.
    split; [apply N.leb_le | apply N.leb_le]; dlia. }
  rewrite Hh. cbn [andb]. change (92 =? 92) with true.
  change (117 =? 117) with true. cbn [andb].
  rewrite decode_u_escape by dlia.
  assert (Hl : is_low_surrogate (56320 + n mod 1024) = true).
  { unfold is_low_surrogate. apply andb_true_intro.
    split; [apply N.leb_le | apply N.leb_le]; dlia. }
  rewrite Hl. now rewrite join_halves.
Qed.

Lemma scalar_bounds c :
  scalar c = true -> c < 55296 \/ (57343 < c /\ c < 1114112).
Proof.
  unfold scalar. intros H. apply orb_prop in H as [H|H].
  - left. now apply N.ltb_lt.
  - right. apply andb_prop in H as [H1 H2]. split; now apply N.ltb_lt.
Qed.

(** The decoder undoes the escape of one scalar value. *)
Lemma scanstring_escape_char c k :
  scalar c = true ->
  scanstring (escape_char c ++ k) = cons_char c (scanstring k).
Proof.
  intros Hc. apply scalar_bounds in Hc. unfold escape_char.
  destruct (N.eqb_spec c 34) as [->|]; [now apply scanstring_backslash|].
  destruct (N.eqb_spec c 92) as [->|]; [now apply scanstring_backslash|].
  destruct (N.eqb_spec c 8) as [->|]; [now apply scanstring_backslash|].
  destruct (N.eqb_spec c 12) as [->|]; [now apply scanstring_backslash|].
  destruct (N.eqb_spec c 10) as [->|]; [now apply scanstring_backslash|].
  destruct (N.eqb_spec c 13) as [->|]; [now apply scanstring_backslash|].
  destruct (N.eqb_spec c 9) as [->|]; [now apply scanstring_backslash|].
  destruct (N.leb_spec 32 c); cbn [andb].
  - destruct (N.leb_spec c 126).
    + now apply scanstring_plain.
    + destruct (N.ltb_spec c 65536).
      * apply scanstring_u_escape; [assumption|].
        unfold is_high_surrogate. apply andb_false_iff.
        destruct Hc as [Hc|Hc]; [left; apply N.leb_gt | right; apply N.leb_gt]; lia.
      * cbv zeta. rewrite high_half, low_half by lia. rewrite <- app_assoc.
        rewrite scanstring_u_escape_pair by lia. f_equal. lia.
  - destruct (N.ltb_spec c 65536); [|lia].
    apply scanstring_u_escape; [lia|].
    unfold is_high_surrogate. apply andb_false_iff. left. apply N.leb_gt. lia.
Qed.

Lemma scanstring_escaped s rest :
  str_ok s = true ->
  scanstring (flat_map escape_char s ++ 34 :: rest) = Some (s, rest).
Proof.
  induction s as [|c s IH]; intros Hs.
  - reflexivity.
  - cbn [str_ok forallb] in Hs. apply andb_prop in Hs as [Hc Hs].
    cbn [flat_map]. rewrite <- app_assoc, scanstring_escape_char by assumption.
    unfold str_ok in IH. now rewrite IH.
Qed.

(** [scan_once] at an encoded string, whatever follows it. *)
Lemma scanstring_encode s rest :
  str_ok s = true ->
  exists body, encode_basestring_ascii s ++ rest = 34 :: body
               /\ scanstring body = Some (s, rest).
Proof.
  intros Hs. exists (flat_map escape_char s ++ 34 :: rest). split.
  - unfold encode_basestring_ascii. cbn [app]. now rewrite <- app_assoc.
  - now apply scanstring_escaped.
Qed.

End JsonFacts.

Module IntFacts.
Import Json.

(** ** Integers *)

Lemma take_digits_stop rest n :
  match rest with [] => True | c :: _ => is_digit c = false end ->
  take_digits rest n = (n, rest).
Proof.
  destruct rest as [|c r]; [reflexivity|]. intros Hc. cbn [take_digits]. now rewrite Hc.
Qed.

Lemma is_digit_of d : d < 10 -> is_digit (48 + d) = true.
Proof.
  intros Hd. unfold is_digit. apply andb_true_intro.
  split; apply N.leb_le; lia.
Qed.

(** The digits [digits] writes, read from the left: a first digit [d],
    which is ['0'] for [0] only, and the others [ds]. *)
Lemma digits_S f n acc :
  digits (S f) n acc
  = if n / 10 =? 0 then (48 + n mod 10) :: acc
    else digits f (n / 10) ((48 + n mod 10) :: acc).
Proof. reflexivity. Qed.

Lemma digits_read f : forall n acc,
  n < 2 ^ N.of_nat (S f) ->
  exists d ds,
    digits (S f) n acc = d :: ds ++ acc
    /\ 48 <= d <= 57
    /\ (d = 48 -> n = 0 /\ ds = [])
    /\ (forall rest, take_digits (ds ++ rest) (d - 48) = take_digits rest n).
Proof.
  induction f as [|f IH]; intros n acc Hn; rewrite digits_S.
  - assert (n / 10 = 0) as H0 by (cbn in Hn; dlia).
    rewrite H0. cbn [N.eqb].
    exists (48 + n mod 10), []. cbn [app].
    split; [reflexivity|]. split; [dlia|]. split; [intros; split; [dlia|reflexivity]|].
    intros rest. f_equal. dlia.
  - destruct (N.eqb_spec (n / 10) 0) as [H0|H0].
    + exists (48 + n mod 10), []. cbn [app].
      split; [reflexivity|]. split; [dlia|]. split; [intros; split; [dlia|reflexivity]|].
      intros rest. f_equal. dlia.
    + destruct (IH (n / 10) ((48 + n mod 10) :: acc)) as (d & ds & E & Hd & Hz & Ht).
      { rewrite Nat2N.inj_succ, N.pow_succ_r' in Hn.
        rewrite Nat2N.inj_succ, N.pow_succ_r'.
        rewrite Nat2N.inj_succ, N.pow_succ_r' in Hn. dlia. }
      exists d, (ds ++ [48 + n mod 10]). rewrite E, <- app_assoc. cbn [app].
      split; [reflexivity|]. split; [exact Hd|].
      split; [intros Hd0; apply Hz in Hd0; tauto|].
      intros rest. rewrite <- app_assoc. cbn [app]. rewrite Ht.
      cbn [take_digits]. rewrite is_digit_of by dlia. f_equal. dlia.
Qed.

Lemma intstr_N_read n :
  exists d ds,
    intstr_N n = d :: ds
    /\ 48 <= d <= 57
    /\ (d = 48 -> n = 0 /\ ds = [])
    /\ (forall rest, take_digits (ds ++ rest) (d - 48) = take_digits rest n).
Proof.
  unfold intstr_N.
  destruct (digits_read (N.to_nat (N.log2 n)) n []) as (d & ds & E & H).
  - rewrite Nat2N.inj_succ, N2Nat.id.
    destruct (N.eq_dec n 0) as [->|Hn]; [reflexivity|].
    apply N.log2_spec. lia.
  - exists d, ds. now rewrite E, app_nil_r.
Qed.

Lemma int_result_delimited (neg : bool) n rest :
  delimited rest ->
  int_result neg n rest
  = Some (VInt (if neg then (- Z.of_N n)%Z else Z.of_N n), rest).
Proof.
  destruct rest as [|c r]; [reflexivity|].
  intros [-> | ->]; reflexivity.
Qed.

Lemma delimited_no_digit rest :
  delimited rest ->
  match rest with [] => True | c :: _ => is_digit c = false end.
Proof. destruct rest as [|c r]; [easy|]. now intros [-> | ->]. Qed.

Lemma match_number_digits (neg : bool) n rest :
  delimited rest ->
  match_number ((if neg then [45] else []) ++ intstr_N n ++ rest)
  = Some (VInt (if neg then (- Z.of_N n)%Z else Z.of_N n), rest).
Proof.
  intros Hrest.
  destruct (intstr_N_read n) as (d & ds & E & Hd & Hz & Ht). rewrite E.
  assert (Hnum : (let '(neg0, s1) := (neg, d :: ds ++ rest) in
                  match s1 with
                  | c :: r =>
                      if c =? 48 then int_result neg0 0 r
                      else if (49 <=? c) && (c <=? 57) then
                        let '(n0, r') := take_digits r (c - 48) in int_result neg0 n0 r'
                      else None
                  | [] => None
                  end) = Some (VInt (if neg then (- Z.of_N n)%Z else Z.of_N n), rest)).
  { cbv beta iota zeta.
    destruct (N.eqb_spec d 48) as [H48|H48].
    - destruct (Hz H48) as [-> ->]. cbn [app]. now apply int_result_delimited.
    - destruct (N.leb_spec 49 d); [|lia]. destruct (N.leb_spec d 57); [|lia].
      cbn [andb]. rewrite Ht, take_digits_stop by now apply delimited_no_digit.
      now apply int_result_delimited. }
  unfold match_number. destruct neg; cbn [app].
  - change (45 =? 45) with true. cbn iota. exact Hnum.
  - destruct (N.eqb_spec d 45); [lia|]. exact Hnum.
Qed.

Lemma match_number_intstr z rest :
  delimited rest ->
  match_number (intstr z ++ rest) = Some (VInt z, rest).
Proof.
  intros Hrest. unfold intstr. destruct (Z.ltb_spec z 0).
  - change (45 :: intstr_N (Z.abs_N z)) with ([45] ++ intstr_N (Z.abs_N z)).
    rewrite <- app_assoc.
    rewrite (match_number_digits true) by assumption.
    rewrite N2Z.inj_abs_N. do 3 f_equal. lia.
  - pose proof (match_number_digits false (Z.abs_N z) rest Hrest) as E.
    cbv beta iota in E. cbn [app] in E. rewrite E.
    rewrite N2Z.inj_abs_N. do 3 f_equal. lia.
Qed.

Lemma intstr_head z :
  exists c r, intstr z = c :: r /\ (c = 45 \/ 48 <= c <= 57).
Proof.
  unfold intstr. destruct (intstr_N_read (Z.abs_N z)) as (d & ds & E & Hd & _).
  destruct (z <? 0)%Z.
  - eexists _, _. split; [reflexivity|]. now left.
  - exists d, ds. split; [exact E|]. now right.
Qed.

End IntFacts.

Module RoundTrip.
Import Json JsonFacts IntFacts.

(** ** Whitespace and first characters *)

Lemma value_start_cases c :
  value_start c = true ->
  c = 34 \/ c = 123 \/ c = 91 \/ c = 110 \/ c = 116 \/ c = 102 \/ c = 45
  \/ 48 <= c <= 57.
Proof.
  unfold value_start, is_digit. intros H.
  repeat (apply orb_prop in H as [H|H]);
    try (apply N.eqb_eq in H; tauto).
  apply andb_prop in H as [H1 H2]. apply N.leb_le in H1, H2. tauto.
Qed.

Lemma value_start_not_ws c : value_start c = true -> is_ws c = false.
Proof.
  intros H. apply value_start_cases in H.
  destruct H as [->|[->|[->|[->|[->|[->|[->|H]]]]]]]; try reflexivity.
  unfold is_ws.
  destruct (N.eqb_spec c 32); [lia|]. destruct (N.eqb_spec c 9); [lia|].
  destruct (N.eqb_spec c 10); [lia|]. destruct (N.eqb_spec c 13); [lia|].
  reflexivity.
Qed.

Lemma skip_ws_start c r : value_start c = true -> skip_ws (c :: r) = c :: r.
Proof.
  intros Hc. cbn [skip_ws]. now rewrite (value_start_not_ws c Hc).
Qed.

Lemma skip_ws_keep c r : is_ws c = false -> skip_ws (c :: r) = c :: r.
Proof. intros Hc. cbn [skip_ws]. now rewrite Hc. Qed.

Lemma skip_ws_spaces n s : skip_ws (repeat 32 n ++ s) = skip_ws s.
Proof. induction n as [|n IH]; [reflexivity|]. exact IH. Qed.

Lemma skip_ws_newline_indent level s :
  skip_ws (newline_indent level ++ s) = skip_ws s.
Proof. unfold newline_indent. cbn [app skip_ws is_ws N.eqb Pos.eqb orb]. apply skip_ws_spaces. Qed.

Lemma value_start_not_close c : value_start c = true -> (c =? 93) = false.
Proof.
  intros H. apply value_start_cases in H.
  destruct H as [->|[->|[->|[->|[->|[->|[->|H]]]]]]]; try reflexivity.
  apply N.eqb_neq. lia.
Qed.

Lemma iterencode_start level v :
  exists c r, iterencode level v = c :: r /\ value_start c = true.
Proof.
  destruct v as [|[]|z|s|[|x xs]|[|[k x] kxs]];
    try (eexists _, _; split; [reflexivity|reflexivity]).
  cbn [iterencode].
  destruct (intstr_head z) as (c & r & E & Hc). exists c, r. split; [exact E|].
  destruct Hc as [->|Hc]; [reflexivity|].
  unfold value_start. replace (is_digit c) with true; [now rewrite !orb_true_r|].
  unfold is_digit. symmetry. apply andb_true_intro. split; apply N.leb_le; lia.
Qed.

Lemma skip_ws_iterencode level v rest :
  skip_ws (iterencode level v ++ rest) = iterencode level v ++ rest.
Proof.
  destruct (iterencode_start level v) as (c & r & E & Hc).
  rewrite E. cbn [app]. now apply skip_ws_start.
Qed.

(** ** The loops *)

Lemma scan_once_S f s :
  scan_once (S f) s
  = match s with
    | [] => None
    | c :: r =>
        if c =? 34 then
          match scanstring r with
          | Some (str, rest) => Some (VStr str, rest)
          | None => None
          end
        else if c =? 123 then
          match skip_ws r with
          | c1 :: r1 =>
              if c1 =? 125 then Some (VDict [], r1)
              else if c1 =? 34 then
                match object_loop f r1 with
                | Some (pairs, rest) => Some (VDict (dict_of_pairs pairs), rest)
                | None => None
                end
              else None
          | [] => None
          end
        else if c =? 91 then
          match skip_ws r with
          | c1 :: r1 =>
              if c1 =? 93 then Some (VList [], r1)
              else
                match array_loop f (c1 :: r1) with
                | Some (values, rest) => Some (VList values, rest)
                | None => None
                end
          | [] => None
          end
        else
          match strip_prefix (u "null") s with
          | Some rest => Some (VNone, rest)
          | None =>
              match strip_prefix (u "true") s with
              | Some rest => Some (VBool true, rest)
              | None =>
                  match strip_prefix (u "false") s with
                  | Some rest => Some (VBool false, rest)
                  | None => match_number s
                  end
              end
          end
    end.
Proof. reflexivity. Qed.

Lemma array_loop_S f s :
  array_loop (S f) s
  = match scan_once f s with
    | None => None
    | Some (v, r) =>
        match skip_ws r with
        | c :: r1 =>
            if c =? 93 then Some ([v], r1)
            else if c =? 44 then
              match array_loop f (skip_ws r1) with
              | Some (vs, rest) => Some (v :: vs, rest)
              | None => None
              end
            else None
        | [] => None
        end
    end.
Proof. reflexivity. Qed.

Lemma object_loop_S f s :
  object_loop (S f) s
  = match scanstring s with
    | None => None
    | Some (key, r) =>
        match skip_ws r with
        | c :: r1 =>
            if c =? 58 then
              match scan_once f (skip_ws r1) with
              | None => None
              | Some (v, r2) =>
                  match skip_ws r2 with
                  | c2 :: r3 =>
                      if c2 =? 125 then Some ([(key, v)], r3)
                      else if c2 =? 44 then
                        match skip_ws r3 with
                        | c3 :: r4 =>
                            if c3 =? 34 then
                              match object_loop f r4 with
                              | Some (kvs, rest) => Some ((key, v) :: kvs, rest)
                              | None => None
                              end
                            else None
                        | [] => None
                        end
                      else None
                  | [] => None
                  end
              end
            else None
        | [] => None
        end
    end.
Proof. reflexivity. Qed.

(** A value is read back from its text at any indentation level, before
    any delimiter, with any fuel from [fuel_for] on. *)
Definition reads_back (v : value) : Prop :=
  forall level rest fuel,
    well_formed v = true -> delimited rest -> (fuel_for v <= fuel)%nat ->
    scan_once fuel (iterencode level v ++ rest) = Some (v, rest).

Lemma array_loop_items level rest : forall xs x fuel,
  reads_back x -> Forall reads_back xs ->
  well_formed x = true -> forallb well_formed xs = true ->
  (S (fuel_for x) + list_sum (List.map (fun y => S (fuel_for y)) xs) <= fuel)%nat ->
  array_loop fuel
    (iterencode (S level) x
       ++ joined (item_separator ++ newline_indent (S level))
            (List.map (iterencode (S level)) xs)
       ++ newline_indent level ++ 93 :: rest)
  = Some (x :: xs, rest).
Proof.
  induction xs as [|y ys IH]; intros x fuel Hx Hxs Wx Wxs Hfuel;
    (destruct fuel as [|f]; [simpl in Hfuel; lia|]); rewrite array_loop_S.
  - cbn [List.map joined app]. simpl in Hfuel.
    rewrite (Hx (S level) _ f Wx); [| now left + now right | lia].
    change (10 :: repeat 32 (2 * level)%nat ++ 93 :: rest)
      with (newline_indent level ++ 93 :: rest).
    rewrite skip_ws_newline_indent. reflexivity.
  - cbn [List.map joined]. simpl in Hfuel.
    unfold item_separator at 1. rewrite <- !app_assoc. cbn [app].
    rewrite (Hx (S level) _ f Wx); [| now left | lia].
    cbn [skip_ws is_ws N.eqb Pos.eqb orb].
    rewrite skip_ws_newline_indent, skip_ws_iterencode.
    apply Forall_cons_1 in Hxs as [Hy Hys].
    cbn [forallb] in Wxs. apply andb_prop in Wxs as [Wy Wys].
    rewrite (IH y f Hy Hys Wy Wys) by lia. reflexivity.
Qed.

Lemma object_loop_items level rest : forall kxs k x fuel,
  reads_back x -> Forall (fun kv => reads_back (snd kv)) kxs ->
  str_ok k = true -> well_formed x = true ->
  forallb (fun kv => str_ok (fst kv) && well_formed (snd kv)) kxs = true ->
  (S (fuel_for x) + list_sum (List.map (fun kv => S (fuel_for (snd kv))) kxs) <= fuel)%nat ->
  object_loop fuel
    (flat_map escape_char k ++ 34 :: key_separator
       ++ iterencode (S level) x
       ++ joined (item_separator ++ newline_indent (S level))
            (List.map (fun kv => encode_basestring_ascii (fst kv) ++ key_separator
                                   ++ iterencode (S level) (snd kv)) kxs)
       ++ newline_indent level ++ 125 :: rest)
  = Some ((k, x) :: kxs, rest).
Proof.
  induction kxs as [|[k' x'] kxs IH]; intros k x fuel Hx Hxs Wk Wx Wxs Hfuel;
    (destruct fuel as [|f]; [simpl in Hfuel; lia|]); rewrite object_loop_S;
    rewrite scanstring_escaped by assumption;
    unfold key_separator at 1; cbn [app skip_ws is_ws N.eqb Pos.eqb orb];
    rewrite skip_ws_iterencode; simpl in Hfuel.
  - cbn [List.map joined app].
    rewrite (Hx (S level) _ f Wx); [| now right | lia].
    rewrite skip_ws_newline_indent. reflexivity.
  - cbn [List.map joined fst snd].
    unfold item_separator at 1, encode_basestring_ascii at 1.
    rewrite <- !app_assoc. cbn [app]. rewrite <- !app_assoc.
    rewrite (Hx (S level) _ f Wx); [| now left | lia].
    cbn [skip_ws is_ws N.eqb Pos.eqb orb].
    rewrite skip_ws_newline_indent.
    cbn [skip_ws is_ws N.eqb Pos.eqb orb app].
    apply Forall_cons_1 in Hxs as [Hy Hys]. cbn [snd] in Hy.
    cbn [forallb fst snd] in Wxs. apply andb_prop in Wxs as [Wy Wys].
    apply andb_prop in Wy as [Wk' Wx'].
    rewrite (IH k' x' f Hy Hys Wk' Wx' Wys) by lia. reflexivity.
Qed.

(** ** [dict(pairs)] of pairs with different keys *)

Lemma dict_set_fresh d k v :
  existsb (fun k' => str_eqb k' k) (List.map fst d) = false ->
  dict_set d k v = d ++ [(k, v)].
Proof.
  induction d as [|[k' v'] d IH]; intros H; [reflexivity|].
  cbn [List.map fst existsb] in H. apply orb_false_elim in H as [H1 H2].
  cbn [dict_set app]. rewrite H1. f_equal. auto.
Qed.

Lemma keys_distinct_app ks1 k ks2 :
  keys_distinct (ks1 ++ k :: ks2) = true ->
  existsb (fun k' => str_eqb k' k) ks1 = false.
Proof.
  induction ks1 as [|a ks1 IH]; intros H; [reflexivity|].
  cbn [app keys_distinct] in H. apply andb_prop in H as [H1 H2].
  cbn [existsb]. rewrite (IH H2), orb_false_r.
  apply negb_true_iff in H1. rewrite existsb_app in H1.
  apply orb_false_elim in H1 as [_ H1]. cbn [existsb] in H1.
  now apply orb_false_elim in H1 as [H1 _].
Qed.

Lemma dict_of_pairs_distinct d :
  keys_distinct (List.map fst d) = true -> dict_of_pairs d = d.
Proof.
  unfold dict_of_pairs.
  enough (forall acc, keys_distinct (List.map fst (acc ++ d)) = true ->
            fold_left (fun d kv => dict_set d (fst kv) (snd kv)) d acc = acc ++ d)
    as H by (intros Hd; exact (H [] Hd)).
  induction d as [|[k v] d IH]; intros acc Hacc; cbn [fold_left fst snd].
  - now rewrite app_nil_r.
  - rewrite dict_set_fresh.
    + rewrite IH; rewrite <- app_assoc; [reflexivity | exact Hacc].
    + rewrite List.map_app in Hacc. cbn [List.map fst] in Hacc.
      now apply keys_distinct_app in Hacc.
Qed.

(** ** Every well-formed value is read back *)

Lemma fuel_for_pos v : (1 <= fuel_for v)%nat.
Proof. destruct v; simpl; lia. Qed.

Theorem scan_once_iterencode v : reads_back v.
Proof.
  induction v as [|b|z|s|l IH|d IH] using value_ind';
    intros level rest fuel Wf Hrest Hfuel;
    (destruct fuel as [|f]; [pose proof (fuel_for_pos VNone); simpl in Hfuel; lia|]);
    rewrite scan_once_S.
  - reflexivity.
  - destruct b; reflexivity.
  - cbn [iterencode]. pose proof (match_number_intstr z rest Hrest) as Hnum.
    destruct (intstr_head z) as (c & r & E & Hc). rewrite E in *. cbn [app] in *.
    destruct (N.eqb_spec c 34); [lia|]. destruct (N.eqb_spec c 123); [lia|].
    destruct (N.eqb_spec c 91); [lia|].
    change (u "null") with [110; 117; 108; 108].
    change (u "true") with [116; 114; 117; 101].
    change (u "false") with [102; 97; 108; 115; 101].
    cbn [strip_prefix].
    destruct (N.eqb_spec 110 c); [lia|]. destruct (N.eqb_spec 116 c); [lia|].
    destruct (N.eqb_spec 102 c); [lia|]. exact Hnum.
  - cbn [iterencode well_formed] in *.
    destruct (scanstring_encode s rest Wf) as (body & E & Hbody).
    rewrite E. change (34 =? 34) with true. cbn iota. now rewrite Hbody.
  - destruct l as [|x xs]; [reflexivity|].
    cbn [iterencode]. cbv zeta. rewrite <- !app_assoc. cbn [app].
    change (91 =? 34) with false. change (91 =? 123) with false.
    change (91 =? 91) with true. cbn iota.
    rewrite skip_ws_newline_indent, skip_ws_iterencode.
    destruct (iterencode_start (S level) x) as (c & r & E & Hc).
    apply Forall_cons_1 in IH as [Hx Hxs].
    cbn [well_formed forallb] in Wf. apply andb_prop in Wf as [Wx Wxs].
    pose proof (array_loop_items level rest xs x f Hx Hxs Wx Wxs) as Hloop.
    rewrite E in *. cbn [app] in *.
    rewrite (value_start_not_close c Hc). rewrite Hloop; [reflexivity|].
    simpl in Hfuel. lia.
  - destruct d as [|[k x] kxs]; [reflexivity|].
    cbn [iterencode]. cbv zeta. unfold encode_basestring_ascii at 1.
    rewrite <- !app_assoc. cbn [app]. rewrite <- !app_assoc.
    change (123 =? 34) with false. change (123 =? 123) with true. cbn iota.
    rewrite skip_ws_newline_indent.
    cbn [skip_ws is_ws N.eqb Pos.eqb orb app].
    apply Forall_cons_1 in IH as [Hx Hxs]. cbn [snd] in Hx.
    cbn [well_formed] in Wf. apply andb_prop in Wf as [Wkeys Wf].
    cbn [forallb fst snd] in Wf. apply andb_prop in Wf as [Wkx Wxs].
    apply andb_prop in Wkx as [Wk Wx].
    rewrite (object_loop_items level rest kxs k x f Hx Hxs Wk Wx Wxs).
    + now rewrite dict_of_pairs_distinct.
    + simpl in Hfuel. lia.
Qed.

(** ** The text is at least as long as the fuel it takes *)

Lemma length_joined sep chunks :
  length (joined sep chunks)
  = list_sum (List.map (fun c => (length sep + length c)%nat) chunks).
Proof.
  induction chunks as [|c cs IH]; [reflexivity|].
  cbn [joined List.map]. rewrite !length_app, IH. simpl. lia.
Qed.

Lemma list_sum_map_le {A} (f g : A -> nat) (l : list A) :
  Forall (fun x => f x <= g x)%nat l ->
  (list_sum (List.map f l) <= list_sum (List.map g l))%nat.
Proof.
  induction 1 as [|x l Hx _ IH]; [reflexivity|].
  change (f x + list_sum (List.map f l) <= g x + list_sum (List.map g l))%nat. lia.
Qed.

Lemma length_separator level :
  (1 <= length (item_separator ++ newline_indent level))%nat.
Proof. rewrite length_app. change (length item_separator) with 1%nat. lia. Qed.

Lemma fuel_for_length v : forall level, (fuel_for v <= length (iterencode level v))%nat.
Proof.
  induction v as [|b|z|s|l IH|d IH] using value_ind'; intros level.
  - simpl. lia.
  - destruct b; simpl; lia.
  - cbn [iterencode fuel_for]. destruct (intstr_head z) as (c & r & E & _).
    rewrite E. simpl. lia.
  - simpl. lia.
  - destruct l as [|x xs]; [simpl; lia|].
    apply Forall_cons_1 in IH as [Hx Hxs].
    cbn [iterencode fuel_for]. cbv zeta.
    rewrite !length_app, length_joined, List.map_map. specialize (Hx (S level)).
    pose proof (list_sum_map_le
                  (fun y => S (fuel_for y))
                  (fun y => (length (item_separator ++ newline_indent (S level))
                             + length (iterencode (S level) y))%nat) xs) as Hsum.
    change (list_sum (List.map (fun y => S (fuel_for y)) (x :: xs)))
      with (S (fuel_for x) + list_sum (List.map (fun y => S (fuel_for y)) xs))%nat.
    change (length [91]) with 1%nat. change (length [93]) with 1%nat.
    change (length (newline_indent (S level)))
      with (S (length (repeat 32 (2 * S level)%nat))).
    enough (list_sum (List.map (fun y => S (fuel_for y)) xs)
            <= list_sum (List.map
                 (fun y => (length (item_separator ++ newline_indent (S level))
                            + length (iterencode (S level) y))%nat) xs))%nat by lia.
    apply Hsum. eapply Forall_impl; [exact Hxs|]. intros y Hy. cbv beta.
    specialize (Hy (S level)). pose proof (length_separator (S level)). lia.
  - destruct d as [|[k x] kxs]; [simpl; lia|].
    apply Forall_cons_1 in IH as [Hx Hxs]. cbn [snd] in Hx.
    cbn [iterencode fuel_for]. cbv zeta.
    rewrite !length_app, length_joined, List.map_map. specialize (Hx (S level)).
    pose proof (list_sum_map_le
                  (fun kv => S (fuel_for (snd kv)))
                  (fun kv => (length (item_separator ++ newline_indent (S level))
                              + length (encode_basestring_ascii (fst kv) ++ key_separator
                                          ++ iterencode (S level) (snd kv)))%nat) kxs) as Hsum.
    change (list_sum (List.map (fun kv => S (fuel_for (snd kv))) ((k, x) :: kxs)))
      with (S (fuel_for x) + list_sum (List.map (fun kv => S (fuel_for (snd kv))) kxs))%nat.
    change (length [123]) with 1%nat. change (length [125]) with 1%nat.
    change (length (newline_indent (S level)))
      with (S (length (repeat 32 (2 * S level)%nat))).
    enough (list_sum (List.map (fun kv => S (fuel_for (snd kv))) kxs)
            <= list_sum (List.map
                 (fun kv => (length (item_separator ++ newline_indent (S level))
                             + length (encode_basestring_ascii (fst kv) ++ key_separator
                                         ++ iterencode (S level) (snd kv)))%nat) kxs))%nat by lia.
    apply Hsum. eapply Forall_impl; [exact Hxs|]. intros [k' y] Hy. cbv beta.
    cbn [fst snd] in *. specialize (Hy (S level)).
    rewrite !length_app. change (length item_separator) with 1%nat. lia.
Qed.

(** ** [loads] after [dumps] *)

Theorem loads_dumps v : well_formed v = true -> loads (dumps v) = Some v.
Proof.
  intros Wf. unfold loads, dumps.
  pose proof (skip_ws_iterencode 0 v []) as Hws. rewrite app_nil_r in Hws.
  rewrite Hws.
  pose proof (scan_once_iterencode v 0%nat [] (S (length (iterencode 0 v))) Wf I) as Hscan.
  rewrite app_nil_r in Hscan. rewrite Hscan; [reflexivity|].
  pose proof (fuel_for_length v 0). lia.
Qed.

End RoundTrip.

(** * Facts about the server *)

(** ** The dispatch table as a finite map *)

Lemma dict_literal_list_to_map items :
  dict_literal items = list_to_map (reverse items).
Proof.
  unfold dict_literal. rewrite <- (reverse_involutive items) at 1.
  generalize (reverse items) as l. intros l.
  induction l as [|[k v] l IH]; [reflexivity|].
  rewrite reverse_cons, fold_left_app, IH. reflexivity.
Qed.

Lemma dict_literal_lookup_Some items k v :
  NoDup (List.map fst items) ->
  dict_literal items !! k = Some v <-> (k, v) ∈ items.
Proof.
  intros Hnd. rewrite dict_literal_list_to_map.
  rewrite <- elem_of_list_to_map.
  - now rewrite elem_of_reverse.
  - change (NoDup (reverse items).*1).
    now rewrite fmap_reverse, reverse_Permutation.
Qed.

Lemma dict_literal_lookup_None items k :
  dict_literal items !! k = None <-> k ∉ List.map fst items.
Proof.
  rewrite dict_literal_list_to_map, <- not_elem_of_list_to_map.
  change ((reverse items).*1) with (fst <$> reverse items).
  rewrite fmap_reverse, elem_of_reverse. reflexivity.
Qed.

Lemma dict_literal_dom items :
  dom (dict_literal items) = (list_to_set (List.map fst items) : gset pystr).
Proof.
  apply set_eq. intros k. rewrite elem_of_dom, elem_of_list_to_set.
  destruct (dict_literal items !! k) eqn:E.
  - split; [intros _|eauto]. destruct (decide (k ∈ List.map fst items)); [done|].
    apply dict_literal_lookup_None in n. congruence.
  - split; [intros [? ?]; congruence|]. intros Hk.
    apply dict_literal_lookup_None in E. contradiction.
Qed.

(** ** The catalog *)

Lemma TOOLS_names_NoDup : NoDup (List.map name TOOLS).
Proof. apply (bool_decide_unpack _). vm_compute. exact I. Qed.

Section ServerFacts.

Variables SECRET_URI_SCHEMES DATABASE_SCHEMA ARCHITECTURE_OVERVIEW : value.

(** The keys of the table are the names of the catalog, in its order. *)
Lemma dispatch_keys : List.map fst (_DISPATCH_items SECRET_URI_SCHEMES DATABASE_SCHEMA ARCHITECTURE_OVERVIEW)
  = List.map name TOOLS.
Proof. reflexivity. Qed.

Lemma dispatch_lookup_Some n d :
  _DISPATCH SECRET_URI_SCHEMES DATABASE_SCHEMA ARCHITECTURE_OVERVIEW !! n = Some d
  <-> (n, d) ∈ _DISPATCH_items SECRET_URI_SCHEMES DATABASE_SCHEMA ARCHITECTURE_OVERVIEW.
Proof.
  apply dict_literal_lookup_Some. rewrite dispatch_keys. apply TOOLS_names_NoDup.
Qed.

Lemma dispatch_lookup_None n :
  _DISPATCH SECRET_URI_SCHEMES DATABASE_SCHEMA ARCHITECTURE_OVERVIEW !! n = None
  <-> n ∉ List.map name TOOLS.
Proof. rewrite <- dispatch_keys. apply dict_literal_lookup_None. Qed.

(** A property of the three open constants and, by evaluation, of the
    fourteen constants of the data modules holds of every bound value. *)
Lemma dispatch_values (P : value -> bool) :
  forallb P data_constants = true ->
  P SECRET_URI_SCHEMES = true -> P DATABASE_SCHEMA = true ->
  P ARCHITECTURE_OVERVIEW = true ->
  forall n d,
    _DISPATCH SECRET_URI_SCHEMES DATABASE_SCHEMA ARCHITECTURE_OVERVIEW !! n = Some d ->
    P d = true.
Proof.
  intros Hdata HS HD HA n d Hnd. apply dispatch_lookup_Some in Hnd.
  unfold data_constants in Hdata. cbn [forallb] in Hdata.
  repeat (apply andb_prop in Hdata as [? Hdata]).
  unfold _DISPATCH_items in Hnd.
  repeat (apply elem_of_cons in Hnd as [Hnd|Hnd]; [injection Hnd as -> ->; assumption|]).
  now apply elem_of_nil in Hnd.
Qed.

End ServerFacts.


(** * The encoder writes the canonical text *)

Module CanonicalFacts.
Import Json.

Lemma rest_text_app level a b :
  rest_text level (a ++ b) = rest_text level a ++ rest_text level b.
Proof. apply flat_map_app. Qed.

Lemma rest_text_deeper level ls :
  rest_text level (deeper ls) = rest_text (S level) ls.
Proof.
  induction ls as [|[d s] ls IH]; [reflexivity|].
  unfold rest_text, deeper in *. cbn [List.map flat_map fst snd].
  rewrite IH. now rewrite Nat.add_succ_r.
Qed.

Lemma rest_text_top level s r :
  rest_text level ((O, s) :: r) = newline_indent level ++ s ++ rest_text level r.
Proof.
  unfold rest_text, newline_indent. cbn [flat_map fst snd app].
  now rewrite Nat.add_0_r, <- app_assoc.
Qed.

Lemma rest_text_comma level ls :
  ls <> [] -> rest_text level (followed_by_comma ls) = rest_text level ls ++ [44].
Proof.
  induction ls as [|l ls IH]; [congruence|]. intros _.
  destruct ls as [|l' ls].
  - unfold rest_text. cbn [followed_by_comma flat_map fst snd].
    rewrite !app_nil_r. cbn [app]. now rewrite <- app_assoc.
  - change (followed_by_comma (l :: l' :: ls)) with (l :: followed_by_comma (l' :: ls)).
    change (rest_text level (l :: followed_by_comma (l' :: ls)))
      with ((10 :: repeat 32 (2 * (level + fst l))%nat ++ snd l)
              ++ rest_text level (followed_by_comma (l' :: ls))).
    rewrite IH by congruence.
    change (rest_text level (l :: l' :: ls))
      with ((10 :: repeat 32 (2 * (level + fst l))%nat ++ snd l)
              ++ rest_text level (l' :: ls)).
    now rewrite <- app_assoc.
Qed.

Lemma canonical_lines_top v : exists s r, canonical_lines v = (O, s) :: r.
Proof.
  destruct v as [|[]|z|s|[|x xs]|[|kx kxs]]; eexists _, _; reflexivity.
Qed.

(** The lines of an item, one level deeper than its container. *)
Lemma rest_text_item level v :
  rest_text level (deeper (canonical_lines v))
  = newline_indent (S level) ++ lines_text (S level) (canonical_lines v).
Proof.
  rewrite rest_text_deeper.
  destruct (canonical_lines_top v) as (s & r & ->).
  now rewrite rest_text_top.
Qed.

Lemma rest_text_keyed_item level key v :
  rest_text level (keyed key (deeper (canonical_lines v)))
  = newline_indent (S level) ++ key ++ lines_text (S level) (canonical_lines v).
Proof.
  destruct (canonical_lines_top v) as (s & r & ->).
  change (keyed key (deeper ((O, s) :: r))) with ((1%nat, key ++ s) :: deeper r).
  change (rest_text level ((1%nat, key ++ s) :: deeper r))
    with ((10 :: repeat 32 (2 * (level + 1))%nat ++ key ++ s)
            ++ rest_text level (deeper r)).
  rewrite rest_text_deeper. unfold newline_indent, lines_text. cbn [fst snd].
  rewrite Nat.add_1_r. cbn [app]. now rewrite <- !app_assoc.
Qed.

(** The items of a container, whose blocks of lines [block] lay out as
    the chunks [chunk] of the encoder. *)
Lemma rest_text_items {A} level (block : A -> list line) (chunk : A -> pystr) :
  forall xs x,
    Forall (fun y => block y <> []
                     /\ rest_text level (block y) = newline_indent (S level) ++ chunk y)
      (x :: xs) ->
    rest_text level (items_lines (List.map block (x :: xs)))
    = newline_indent (S level) ++ chunk x
        ++ joined (item_separator ++ newline_indent (S level)) (List.map chunk xs).
Proof.
  induction xs as [|y ys IH]; intros x Hall;
    apply Forall_cons_1 in Hall as [[Hne Hx] Hall].
  - cbn [List.map items_lines joined]. now rewrite Hx, app_nil_r.
  - change (items_lines (List.map block (x :: y :: ys)))
      with (followed_by_comma (block x) ++ items_lines (List.map block (y :: ys))).
    rewrite rest_text_app, rest_text_comma, Hx, (IH y Hall) by assumption.
    cbn [List.map joined]. unfold item_separator at 2.
    now rewrite <- !app_assoc.
Qed.

Lemma deeper_not_nil v : deeper (canonical_lines v) <> [].
Proof. destruct (canonical_lines_top v) as (s & r & ->). discriminate. Qed.

Lemma keyed_not_nil key v : keyed key (deeper (canonical_lines v)) <> [].
Proof. destruct (canonical_lines_top v) as (s & r & ->). discriminate. Qed.

(** The encoder, at any level, writes the lines of the value. *)
Lemma iterencode_lines v : forall level,
  iterencode level v = lines_text level (canonical_lines v).
Proof.
  induction v as [|b|z|s|l IH|d IH] using value_ind'; intros level.
  - reflexivity.
  - destruct b; reflexivity.
  - cbn [iterencode canonical_lines lines_text rest_text flat_map snd].
    now rewrite app_nil_r.
  - cbn [iterencode canonical_lines lines_text rest_text flat_map snd].
    now rewrite app_nil_r.
  - destruct l as [|x xs]; [reflexivity|].
    cbn [iterencode canonical_lines lines_text snd]. cbv zeta.
    rewrite rest_text_app, rest_text_top.
    rewrite (rest_text_items level (fun y => deeper (canonical_lines y))
               (iterencode (S level)) xs x).
    + change (rest_text level []) with (@nil N). rewrite app_nil_r.
      now rewrite <- !app_assoc.
    + eapply Forall_impl; [exact IH|]. intros y Hy. cbv beta.
      split; [apply deeper_not_nil|]. now rewrite rest_text_item, <- Hy.
  - destruct d as [|kx kxs]; [reflexivity|].
    cbn [canonical_lines lines_text snd].
    rewrite rest_text_app, rest_text_top.
    rewrite (rest_text_items level
               (fun kv => keyed (encode_basestring_ascii (fst kv) ++ u ": ")
                            (deeper (canonical_lines (snd kv))))
               (fun kv => encode_basestring_ascii (fst kv) ++ key_separator
                            ++ iterencode (S level) (snd kv)) kxs kx).
    + change (rest_text level []) with (@nil N). rewrite app_nil_r.
      destruct kx as [k x]. cbn [iterencode fst snd]. cbv zeta.
      now rewrite <- !app_assoc.
    + eapply Forall_impl; [exact IH|]. intros [k' y] Hy. cbv beta.
      cbn [fst snd] in *.
      split; [apply keyed_not_nil|].
      rewrite rest_text_keyed_item, <- Hy. now rewrite <- app_assoc.
Qed.

Lemma join_lines_rest l r :
  join_lines (List.map render_line (l :: r)) = render_line l ++ rest_text 0 r.
Proof.
  revert l. induction r as [|l' r IH]; intros l.
  - cbn [List.map join_lines rest_text flat_map]. now rewrite app_nil_r.
  - change (join_lines (List.map render_line (l :: l' :: r)))
      with (render_line l ++ 10 :: join_lines (List.map render_line (l' :: r))).
    rewrite IH. reflexivity.
Qed.

(** [json.dumps(obj, indent=2)] is the canonical text of [obj]. *)
Lemma dumps_canonical_text v : dumps v = canonical_text v.
Proof.
  unfold dumps, canonical_text. rewrite iterencode_lines.
  destruct (canonical_lines_top v) as (s & r & ->).
  now rewrite join_lines_rest.
Qed.

End CanonicalFacts.

Lemma data_constants_not_None : forallb is_not_None data_constants = true.
Proof. reflexivity. Qed.

Lemma data_constants_well_formed : forallb well_formed data_constants = true.
Proof. vm_compute. reflexivity. Qed.

Lemma is_not_None_true v : v <> VNone -> is_not_None v = true.
Proof. destruct v; [congruence | reflexivity ..]. Qed.

Lemma call_tool_not_None n arguments g d :
  g_DISPATCH g !! n = Some d -> is_not_None d = true ->
  call_tool n arguments g = ([{| type := u "text"; text := Json.dumps d |}], g).
Proof.
  intros Hd Hnn. unfold call_tool, dict_get. rewrite Hd.
  destruct d; [discriminate Hnn | reflexivity ..].
Qed.

Lemma call_tools_globals calls : forall g, snd (call_tools calls g) = g.
Proof.
  induction calls as [|[n a] calls IH]; intros g; [reflexivity|].
  cbn [call_tools]. pose proof (IH (snd (call_tool n a g))) as Hg.
  assert (snd (call_tool n a g) = g) as Hc.
  { unfold call_tool. now destruct (dict_get (g_DISPATCH g) n). }
  destruct (call_tool n a g) as [r g1]. cbn [snd] in *. subst g1.
  destruct (call_tools calls g) as [rs g2]. cbn [snd] in *. now subst g2.
Qed.

(** * Properties of the handlers, the catalog and the dispatch table *)

(** C1. For every tool name [n] bound in the dispatch table,
    [call_tool(n, arguments)] returns one text content block whose text is
    the canonical serialization of the bound dataset, and any number of
    repeated calls return that same response. The text is
    [json.dumps(data, indent=2)], which is the canonical text: one line
    per scalar and per bracket, the items of a container in their order
    (those of a [dict] in insertion order) with a comma after each but the
    last, two spaces of indentation per level; and [json.loads] reads the
    text of a well-formed dataset back as that dataset. The three
    constants of the absent module [data.cross_cutting] are taken not to
    be [None]. *)
Theorem call_tool_serializes_bound_dataset
  (SECRET_URI_SCHEMES DATABASE_SCHEMA ARCHITECTURE_OVERVIEW : value)
  (n : pystr) (arguments : gmap pystr value) (d : value) :
  SECRET_URI_SCHEMES <> VNone ->
  DATABASE_SCHEMA <> VNone ->
  ARCHITECTURE_OVERVIEW <> VNone ->
  _DISPATCH SECRET_URI_SCHEMES DATABASE_SCHEMA ARCHITECTURE_OVERVIEW !! n = Some d ->
  call_tool n arguments
    (module_globals SECRET_URI_SCHEMES DATABASE_SCHEMA ARCHITECTURE_OVERVIEW)
  = ([{| type := u "text"; text := canonical_text d |}],
     module_globals SECRET_URI_SCHEMES DATABASE_SCHEMA ARCHITECTURE_OVERVIEW)
  /\ (forall k,
        call_tools (repeat (n, arguments) k)
          (module_globals SECRET_URI_SCHEMES DATABASE_SCHEMA ARCHITECTURE_OVERVIEW)
        = (repeat [{| type := u "text"; text := canonical_text d |}] k,
           module_globals SECRET_URI_SCHEMES DATABASE_SCHEMA ARCHITECTURE_OVERVIEW))
  /\ canonical_text d = Json.dumps d
  /\ (well_formed d = true -> Json.loads (canonical_text d) = Some d).
Proof.
  intros HS HD HA Hnd.
  assert (is_not_None d = true) as Hd.
  { exact (dispatch_values SECRET_URI_SCHEMES DATABASE_SCHEMA ARCHITECTURE_OVERVIEW
             is_not_None data_constants_not_None
             (is_not_None_true _ HS) (is_not_None_true _ HD) (is_not_None_true _ HA)
             n d Hnd). }
  rewrite <- (CanonicalFacts.dumps_canonical_text d).
  assert (forall arguments',
             call_tool n arguments'
               (module_globals SECRET_URI_SCHEMES DATABASE_SCHEMA ARCHITECTURE_OVERVIEW)
             = ([{| type := u "text"; text := Json.dumps d |}],
                module_globals SECRET_URI_SCHEMES DATABASE_SCHEMA ARCHITECTURE_OVERVIEW))
    as Hcall by (intros; now apply call_tool_not_None).
  split; [apply Hcall|]. split; [|split; [reflexivity|apply RoundTrip.loads_dumps]].
  induction k as [|k IH]; [reflexivity|].
  cbn [repeat call_tools]. now rewrite Hcall, IH.
Qed.

Lemma call_tool_serializes_bound_dataset_witness :
  call_tool (u "get_compute_module_outputs") ∅
    (module_globals (VDict []) (VDict []) (VDict []))
  = ([{| type := u "text"; text := canonical_text COMPUTE_MODULE_OUTPUTS |}],
     module_globals (VDict []) (VDict []) (VDict []))
  /\ (forall k,
        call_tools (repeat (u "get_compute_module_outputs", ∅) k)
          (module_globals (VDict []) (VDict []) (VDict []))
        = (repeat [{| type := u "text"; text := canonical_text COMPUTE_MODULE_OUTPUTS |}] k,
           module_globals (VDict []) (VDict []) (VDict [])))
  /\ canonical_text COMPUTE_MODULE_OUTPUTS = Json.dumps COMPUTE_MODULE_OUTPUTS
  /\ (well_formed COMPUTE_MODULE_OUTPUTS = true ->
      Json.loads (canonical_text COMPUTE_MODULE_OUTPUTS) = Some COMPUTE_MODULE_OUTPUTS).
Proof.
  apply (call_tool_serializes_bound_dataset (VDict []) (VDict []) (VDict [])
           (u "get_compute_module_outputs") ∅ COMPUTE_MODULE_OUTPUTS).
  - intros H; discriminate H.
  - intros H; discriminate H.
  - intros H; discriminate H.
  - vm_compute. reflexivity.
Defined.

(** C2. For every name [n] without a binding in the dispatch table,
    [call_tool(n, arguments)] returns, as an ordinary result, one text
    content block whose text is ["Unknown tool: "] followed by [n]. *)
Theorem call_tool_unknown_tool
  (SECRET_URI_SCHEMES DATABASE_SCHEMA ARCHITECTURE_OVERVIEW : value)
  (n : pystr) (arguments : gmap pystr value) :
  _DISPATCH SECRET_URI_SCHEMES DATABASE_SCHEMA ARCHITECTURE_OVERVIEW !! n = None ->
  call_tool n arguments
    (module_globals SECRET_URI_SCHEMES DATABASE_SCHEMA ARCHITECTURE_OVERVIEW)
  = ([{| type := u "text"; text := u "Unknown tool: " ++ n |}],
     module_globals SECRET_URI_SCHEMES DATABASE_SCHEMA ARCHITECTURE_OVERVIEW).
Proof.
  intros Hn. unfold call_tool, dict_get. cbn [g_DISPATCH module_globals].
  now rewrite Hn.
Qed.

Lemma call_tool_unknown_tool_witness :
  call_tool (u "missing") ∅ (module_globals (VDict []) (VDict []) (VDict []))
  = ([{| type := u "text"; text := u "Unknown tool: missing" |}],
     module_globals (VDict []) (VDict []) (VDict [])).
Proof.
  apply (call_tool_unknown_tool (VDict []) (VDict []) (VDict []) (u "missing") ∅).
  vm_compute. reflexivity.
Defined.

(** C3. [list_tools()] returns the declared catalog [TOOLS], every
    descriptor once and in the order of declaration, whatever
    [call_tool] invocations came before it; those leave the globals of the
    module as they were. *)
Theorem list_tools_after_calls
  (SECRET_URI_SCHEMES DATABASE_SCHEMA ARCHITECTURE_OVERVIEW : value)
  (calls : list (pystr * gmap pystr value)) :
  list_tools
    (snd (call_tools calls
            (module_globals SECRET_URI_SCHEMES DATABASE_SCHEMA ARCHITECTURE_OVERVIEW)))
  = (TOOLS, module_globals SECRET_URI_SCHEMES DATABASE_SCHEMA ARCHITECTURE_OVERVIEW)
  /\ NoDup TOOLS
  /\ length TOOLS = 17%nat.
Proof.
  split; [|split].
  - now rewrite call_tools_globals.
  - apply (NoDup_fmap_1 name). exact TOOLS_names_NoDup.
  - reflexivity.
Qed.

(** C4. The names advertised in the catalog and the keys of the dispatch
    table are the same set: a name is advertised exactly when it is
    bound. *)
Theorem catalog_binding_set_equality
  (SECRET_URI_SCHEMES DATABASE_SCHEMA ARCHITECTURE_OVERVIEW : value) :
  dom (_DISPATCH SECRET_URI_SCHEMES DATABASE_SCHEMA ARCHITECTURE_OVERVIEW)
  = (list_to_set (List.map name TOOLS) : gset pystr)
  /\ forall n,
       n ∈ List.map name TOOLS
       <-> is_Some (_DISPATCH SECRET_URI_SCHEMES DATABASE_SCHEMA ARCHITECTURE_OVERVIEW !! n).
Proof.
  split.
  - unfold _DISPATCH. rewrite dict_literal_dom. now rewrite dispatch_keys.
  - intros n. rewrite <- not_eq_None_Some, dispatch_lookup_None.
    destruct (decide (n ∈ List.map name TOOLS)); tauto.
Qed.

(** C5. Loading [server.py] against the modules of the repository stops
    at [from data.cross_cutting import ...] with [ModuleNotFoundError]: no
    module of the package [data] has that name, and none binds
    [SECRET_URI_SCHEMES], [DATABASE_SCHEMA] or [ARCHITECTURE_OVERVIEW]. *)
Theorem load_server_cross_cutting_missing :
  load_server (installed ++ data_package)
  = Some (ModuleNotFoundError (u "data.cross_cutting"))
  /\ find_module (installed ++ data_package) (u "data.cross_cutting") = None
  /\ Forall (fun m =>
               Forall (fun n => n ∉ snd m)
                 [u "SECRET_URI_SCHEMES"; u "DATABASE_SCHEMA"; u "ARCHITECTURE_OVERVIEW"])
       data_package.
Proof.
  split; [vm_compute; reflexivity|]. split; [vm_compute; reflexivity|].
  apply (bool_decide_unpack _). vm_compute. exact I.
Qed.

(** C6. Every dataset bound in the dispatch table is read back by
    [json.loads] from the text [json.dumps(data, indent=2)] gives for it:
    same keys in the same order, same nesting, same scalars. The three
    constants of the absent module [data.cross_cutting] are taken to be
    well formed: strings of Unicode scalar values, and distinct keys in
    every [dict]. *)
Theorem dispatch_round_trip
  (SECRET_URI_SCHEMES DATABASE_SCHEMA ARCHITECTURE_OVERVIEW : value)
  (n : pystr) (d : value) :
  well_formed SECRET_URI_SCHEMES = true ->
  well_formed DATABASE_SCHEMA = true ->
  well_formed ARCHITECTURE_OVERVIEW = true ->
  _DISPATCH SECRET_URI_SCHEMES DATABASE_SCHEMA ARCHITECTURE_OVERVIEW !! n = Some d ->
  Json.loads (Json.dumps d) = Some d.
Proof.
  intros HS HD HA Hnd. apply RoundTrip.loads_dumps.
  exact (dispatch_values SECRET_URI_SCHEMES DATABASE_SCHEMA ARCHITECTURE_OVERVIEW
           well_formed data_constants_well_formed HS HD HA n d Hnd).
Qed.

Lemma dispatch_round_trip_witness :
  Json.loads (Json.dumps FLY_EXAMPLES) = Some FLY_EXAMPLES.
Proof.
  apply (dispatch_round_trip (VDict []) (VDict []) (VDict [])
           (u "get_fly_examples") FLY_EXAMPLES).
  - reflexivity.
  - reflexivity.
  - reflexivity.
  - vm_compute. reflexivity.
Defined.

(** C7. No two entries of the catalog share a name. *)
Theorem catalog_names_unique : NoDup (List.map name TOOLS).
Proof. exact TOOLS_names_NoDup. Qed.

(** C8. Every descriptor of the catalog carries the empty-object input
    schema: an object schema with no properties and no required fields. *)
Theorem tools_take_no_arguments :
  Forall (fun t => inputSchema t = empty_object_schema) TOOLS
  /\ empty_object_schema
     = VDict [(u "type", VStr (u "object")); (u "properties", VDict []);
              (u "required", VList [])].
Proof.
  split; [|reflexivity].
  unfold TOOLS. repeat (apply List.Forall_cons; [reflexivity|]). apply List.Forall_nil.
Qed.

(** C9. The result of [call_tool] depends on the name only: with any two
    argument mappings it returns the same response, and leaves the same
    globals. *)
Theorem call_tool_ignores_arguments
  (n : pystr) (a1 a2 : gmap pystr value) (g : globals) :
  call_tool n a1 g = call_tool n a2 g.
Proof. reflexivity. Qed.

(** * Further facts about the encoder *)

Module EncoderFacts.
Import Json JsonFacts IntFacts RoundTrip.

(** ** The text is printable ASCII *)

Lemma visible_range c : 32 <= c <= 126 -> visible c = true.
Proof.
  intros Hc. unfold visible. apply andb_true_intro. split; apply N.leb_le; lia.
Qed.

Lemma hexdigit_visible d : d < 16 -> visible (hexdigit d) = true.
Proof.
  intros Hd. apply visible_range. unfold hexdigit.
  destruct (N.ltb_spec d 10); lia.
Qed.

Lemma u_escape_visible n : forallb visible (u_escape n) = true.
Proof.
  unfold u_escape. cbn [forallb].
  rewrite !hexdigit_visible by dlia. reflexivity.
Qed.

Lemma escape_char_visible c : forallb visible (escape_char c) = true.
Proof.
  unfold escape_char.
  repeat match goal with
         | |- context [N.eqb c ?k] => destruct (N.eqb_spec c k); [reflexivity|]
         end.
  destruct (N.leb_spec 32 c); cbn [andb].
  - destruct (N.leb_spec c 126).
    + cbn [forallb]. rewrite visible_range by lia. reflexivity.
    + destruct (N.ltb_spec c 65536); [apply u_escape_visible|].
      cbv zeta. rewrite forallb_app, !u_escape_visible. reflexivity.
  - destruct (N.ltb_spec c 65536); [apply u_escape_visible|].
    cbv zeta. rewrite forallb_app, !u_escape_visible. reflexivity.
Qed.

Lemma encode_basestring_ascii_visible s :
  forallb visible (encode_basestring_ascii s) = true.
Proof.
  unfold encode_basestring_ascii. cbn [forallb]. rewrite forallb_app.
  cbn [forallb andb]. rewrite andb_true_r.
  change (visible 34) with true. cbn [andb].
  induction s as [|c s IH]; [reflexivity|].
  cbn [flat_map]. now rewrite forallb_app, escape_char_visible, IH.
Qed.

Lemma digits_visible f : forall n acc,
  forallb visible acc = true -> forallb visible (digits f n acc) = true.
Proof.
  induction f as [|f IH]; intros n acc Hacc; [exact Hacc|].
  rewrite digits_S.
  assert (forallb visible ((48 + n mod 10) :: acc) = true) as Hacc'.
  { cbn [forallb]. rewrite visible_range by dlia. exact Hacc. }
  destruct (n / 10 =? 0); [exact Hacc'|]. now apply IH.
Qed.

Lemma intstr_visible z : forallb visible (intstr z) = true.
Proof.
  unfold intstr, intstr_N. destruct (z <? 0)%Z.
  - cbn [forallb]. change (visible 45) with true. cbn [andb].
    now apply digits_visible.
  - now apply digits_visible.
Qed.

Lemma visible_ascii_text s : forallb visible s = true -> forallb ascii_text s = true.
Proof.
  induction s as [|c s IH]; [reflexivity|]. cbn [forallb]. intros H.
  apply andb_prop in H as [Hc Hs]. unfold ascii_text at 1.
  now rewrite Hc, orb_true_r, IH.
Qed.

Lemma newline_indent_ascii_text level :
  forallb ascii_text (newline_indent level) = true.
Proof.
  unfold newline_indent. cbn [forallb]. change (ascii_text 10) with true.
  cbn [andb]. induction (2 * level)%nat as [|k IH]; [reflexivity|].
  cbn [repeat forallb]. now rewrite IH.
Qed.

Lemma joined_ascii_text sep chunks :
  forallb ascii_text sep = true ->
  Forall (fun c => forallb ascii_text c = true) chunks ->
  forallb ascii_text (joined sep chunks) = true.
Proof.
  intros Hsep. induction 1 as [|c cs Hc _ IH]; [reflexivity|].
  cbn [joined]. now rewrite !forallb_app, Hsep, Hc, IH.
Qed.

Lemma Forall_map_intro {A B} (f : A -> B) (P : B -> Prop) (l : list A) :
  Forall (fun x => P (f x)) l -> Forall P (List.map f l).
Proof.
  induction 1 as [|x l Hx _ IH]; [apply List.Forall_nil|].
  cbn [List.map]. now apply List.Forall_cons.
Qed.

Lemma separator_ascii_text level :
  forallb ascii_text (item_separator ++ newline_indent level) = true.
Proof. now rewrite forallb_app, newline_indent_ascii_text. Qed.

Lemma iterencode_ascii_text v : forall level,
  forallb ascii_text (iterencode level v) = true.
Proof.
  induction v as [|b|z|s|l IH|d IH] using value_ind'; intros level.
  - reflexivity.
  - destruct b; reflexivity.
  - apply visible_ascii_text, intstr_visible.
  - apply visible_ascii_text, encode_basestring_ascii_visible.
  - destruct l as [|x xs]; [reflexivity|].
    apply Forall_cons_1 in IH as [Hx Hxs].
    cbn [iterencode]. cbv zeta.
    rewrite !forallb_app, !newline_indent_ascii_text, Hx.
    rewrite joined_ascii_text; [reflexivity | apply separator_ascii_text |].
    apply Forall_map_intro. eapply Forall_impl; [exact Hxs|].
    intros y Hy. apply Hy.
  - destruct d as [|[k x] kxs]; [reflexivity|].
    apply Forall_cons_1 in IH as [Hx Hxs]. cbn [snd] in Hx.
    cbn [iterencode]. cbv zeta.
    rewrite !forallb_app, !newline_indent_ascii_text, Hx.
    rewrite (visible_ascii_text _ (encode_basestring_ascii_visible k)).
    rewrite joined_ascii_text; [reflexivity | apply separator_ascii_text |].
    apply Forall_map_intro. eapply Forall_impl; [exact Hxs|].
    intros [k' y] Hy. cbn [fst snd] in *. rewrite !forallb_app.
    rewrite (visible_ascii_text _ (encode_basestring_ascii_visible k')).
    now rewrite Hy.
Qed.

(** ** Indentation *)

Lemma reindent_app k a b : reindent k (a ++ b) = reindent k a ++ reindent k b.
Proof. apply flat_map_app. Qed.

Lemma visible_not_newline c : visible c = true -> (c =? 10) = false.
Proof.
  unfold visible. intros H. apply andb_prop in H as [H _].
  apply N.leb_le in H. apply N.eqb_neq. lia.
Qed.

Lemma reindent_visible k s : forallb visible s = true -> reindent k s = s.
Proof.
  induction s as [|c s IH]; [reflexivity|]. cbn [forallb]. intros H.
  apply andb_prop in H as [Hc Hs]. unfold reindent in *. cbn [flat_map].
  rewrite (visible_not_newline c Hc), IH by assumption. reflexivity.
Qed.

Lemma repeat_space_visible k : forallb visible (repeat 32 k) = true.
Proof. induction k as [|k IH]; [reflexivity|]. cbn [repeat forallb]. now rewrite IH. Qed.

Lemma reindent_newline_indent level m :
  reindent (2 * level) (newline_indent m) = newline_indent (level + m).
Proof.
  unfold newline_indent.
  change (10 :: repeat 32 (2 * m)%nat) with ([10] ++ repeat 32 (2 * m)%nat).
  rewrite reindent_app, (reindent_visible _ (repeat 32 (2 * m)%nat))
    by apply repeat_space_visible.
  replace (reindent (2 * level) [10]) with (10 :: repeat 32 (2 * level)%nat)
    by (unfold reindent; cbn [flat_map]; change (10 =? 10) with true;
        cbn iota; now rewrite app_nil_r).
  rewrite <- app_comm_cons. f_equal.
  rewrite <- repeat_app. f_equal. lia.
Qed.

Lemma reindent_joined k sep chunks :
  reindent k (joined sep chunks)
  = joined (reindent k sep) (List.map (reindent k) chunks).
Proof.
  induction chunks as [|c cs IH]; [reflexivity|].
  cbn [joined List.map]. now rewrite !reindent_app, IH.
Qed.

Lemma reindent_separator level m :
  reindent (2 * level) (item_separator ++ newline_indent m)
  = item_separator ++ newline_indent (level + m).
Proof.
  rewrite reindent_app, reindent_newline_indent.
  now rewrite (reindent_visible _ item_separator).
Qed.

Lemma map_ext_Forall_eq {A B} (f g : A -> B) (l : list A) :
  Forall (fun x => f x = g x) l -> List.map f l = List.map g l.
Proof.
  induction 1 as [|x l Hx _ IH]; [reflexivity|]. cbn [List.map]. now rewrite Hx, IH.
Qed.

Lemma iterencode_reindent level v : forall m,
  iterencode (level + m) v = reindent (2 * level) (iterencode m v).
Proof.
  induction v as [|b|z|s|l IH|d IH] using value_ind'; intros m.
  - reflexivity.
  - destruct b; reflexivity.
  - cbn [iterencode]. now rewrite reindent_visible by apply intstr_visible.
  - cbn [iterencode].
    now rewrite reindent_visible by apply encode_basestring_ascii_visible.
  - destruct l as [|x xs]; [reflexivity|].
    apply Forall_cons_1 in IH as [Hx Hxs].
    cbn [iterencode]. cbv zeta.
    rewrite !reindent_app, reindent_joined, reindent_separator,
      !reindent_newline_indent, List.map_map.
    replace (S (level + m)) with (level + S m)%nat by lia. rewrite (Hx (S m)).
    rewrite (map_ext_Forall_eq (iterencode (level + S m))
               (fun y => reindent (2 * level) (iterencode (S m) y)) xs).
    + reflexivity.
    + eapply Forall_impl; [exact Hxs|]. intros y Hy. apply Hy.
  - destruct d as [|[k x] kxs]; [reflexivity|].
    apply Forall_cons_1 in IH as [Hx Hxs]. cbn [snd] in Hx.
    cbn [iterencode]. cbv zeta.
    rewrite !reindent_app, reindent_joined, reindent_separator,
      !reindent_newline_indent, List.map_map.
    rewrite (reindent_visible _ (encode_basestring_ascii k))
      by apply encode_basestring_ascii_visible.
    change (reindent (2 * level) key_separator) with key_separator.
    replace (S (level + m)) with (level + S m)%nat by lia. rewrite (Hx (S m)).
    rewrite (map_ext_Forall_eq
               (fun kv => encode_basestring_ascii (fst kv) ++ key_separator
                            ++ iterencode (level + S m) (snd kv))
               (fun kv => reindent (2 * level)
                            (encode_basestring_ascii (fst kv) ++ key_separator
                               ++ iterencode (S m) (snd kv))) kxs).
    + reflexivity.
    + eapply Forall_impl; [exact Hxs|]. intros [k' y] Hy. cbn [fst snd] in *.
      rewrite !reindent_app, (Hy (S m)).
      rewrite (reindent_visible _ (encode_basestring_ascii k'))
        by apply encode_basestring_ascii_visible.
      reflexivity.
Qed.

(** ** The diagnostic is no JSON text *)

Lemma iterencode_not_diagnostic level v n :
  iterencode level v <> u "Unknown tool: " ++ n.
Proof.
  destruct (iterencode_start level v) as (c & r & E & Hc). rewrite E.
  intros H. injection H as -> _. discriminate Hc.
Qed.

Lemma loads_diagnostic n : loads (u "Unknown tool: " ++ n) = None.
Proof.
  unfold loads.
  change (u "Unknown tool: " ++ n)
    with (85 :: (u "nknown tool: " ++ n)).
  rewrite skip_ws_keep by reflexivity. rewrite scan_once_S.
  reflexivity.
Qed.

End EncoderFacts.

(** * Further facts about the handlers *)

Lemma call_tool_unknown_cases g n a :
  fst (call_tool n a g) = unknown_tool n
  <-> g_DISPATCH g !! n = None \/ g_DISPATCH g !! n = Some VNone.
Proof.
  destruct (g_DISPATCH g !! n) as [d|] eqn:E.
  - destruct (is_not_None d) eqn:Hd.
    + rewrite (call_tool_not_None n a g d E Hd). cbn [fst]. unfold unknown_tool.
      split.
      * intros H. inversion H as [Ht]. unfold Json.dumps in Ht.
        now apply EncoderFacts.iterencode_not_diagnostic in Ht.
      * intros [H|H]; [discriminate H|]. injection H as ->. discriminate Hd.
    + destruct d; try discriminate Hd.
      unfold call_tool, dict_get. rewrite E. cbn [fst].
      split; [now right | reflexivity].
  - unfold call_tool, dict_get. rewrite E. cbn [fst].
    split; [now left | reflexivity].
Qed.

Lemma call_tools_map calls : forall g,
  call_tools calls g
  = (List.map (fun c => fst (call_tool (fst c) (snd c) g)) calls, g).
Proof.
  induction calls as [|[n a] calls IH]; intros g; [reflexivity|].
  cbn [call_tools List.map fst snd].
  assert (snd (call_tool n a g) = g) as Hc.
  { unfold call_tool. now destruct (dict_get (g_DISPATCH g) n). }
  destruct (call_tool n a g) as [r g1]. cbn [fst snd] in *. subst g1.
  now rewrite IH.
Qed.

(** * Further facts about the import statements *)

Lemma str_eqb_eq a : forall b, Json.str_eqb a b = true <-> a = b.
Proof.
  induction a as [|x a IH]; intros [|y b]; cbn [Json.str_eqb]; try easy.
  rewrite andb_true_iff, N.eqb_eq, IH. split.
  - now intros [-> ->].
  - intros H. now injection H.
Qed.

Lemma existsb_str_eqb x names :
  In x names -> existsb (Json.str_eqb x) names = true.
Proof.
  intros H. apply existsb_exists. exists x. split; [exact H|]. now apply str_eqb_eq.
Qed.

Lemma exec_imports_app mods a b :
  exec_imports mods (a ++ b)
  = match exec_imports mods a with
    | Some e => Some e
    | None => exec_imports mods b
    end.
Proof.
  induction a as [|st a IH]; [reflexivity|].
  cbn [app exec_imports]. destruct (exec_import mods st); [reflexivity|exact IH].
Qed.

(** * Further properties of the handlers, the encoder and the imports *)

(** X1. Whatever the dispatch table, [call_tool] answers with the
    unknown-tool diagnostic exactly when the name has no binding or is
    bound to [None]; the text of a dataset is never that diagnostic. *)
Theorem call_tool_unknown_exactly
  (g : globals) (n : pystr) (arguments : gmap pystr value) :
  fst (call_tool n arguments g) = unknown_tool n
  <-> g_DISPATCH g !! n = None \/ g_DISPATCH g !! n = Some VNone.
Proof. apply call_tool_unknown_cases. Qed.

(** X2. Whatever the dispatch table, the text [call_tool] returns for a
    bound dataset is made of line breaks and printable ASCII characters
    only, also when the dataset holds other characters. *)
Theorem call_tool_dataset_text_ascii
  (g : globals) (n : pystr) (arguments : gmap pystr value) (d : value) :
  g_DISPATCH g !! n = Some d -> d <> VNone ->
  Forall (fun b => forallb ascii_text (text b) = true) (fst (call_tool n arguments g)).
Proof.
  intros Hd Hnn.
  rewrite (call_tool_not_None n arguments g d Hd (is_not_None_true d Hnn)).
  cbn [fst]. apply List.Forall_cons; [|apply List.Forall_nil].
  apply EncoderFacts.iterencode_ascii_text.
Qed.

Lemma call_tool_dataset_text_ascii_witness :
  Forall (fun b => forallb ascii_text (text b) = true)
    (fst (call_tool (u "get_uglyfox_config_schema") ∅
            (module_globals (VDict []) (VDict []) (VDict [])))).
Proof.
  apply (call_tool_dataset_text_ascii _ (u "get_uglyfox_config_schema") ∅
           UGLYFOX_CONFIG_SCHEMA).
  - vm_compute. reflexivity.
  - intros H. discriminate H.
Defined.

(** X3. Whatever the dispatch table, two names bound to different
    well-formed datasets never get the same response from [call_tool]. *)
Theorem call_tool_responses_differ
  (g : globals) (n1 n2 : pystr) (a1 a2 : gmap pystr value) (d1 d2 : value) :
  g_DISPATCH g !! n1 = Some d1 -> g_DISPATCH g !! n2 = Some d2 ->
  d1 <> VNone -> d2 <> VNone ->
  well_formed d1 = true -> well_formed d2 = true ->
  d1 <> d2 ->
  fst (call_tool n1 a1 g) <> fst (call_tool n2 a2 g).
Proof.
  intros H1 H2 N1 N2 W1 W2 Hne.
  rewrite (call_tool_not_None n1 a1 g d1 H1 (is_not_None_true d1 N1)).
  rewrite (call_tool_not_None n2 a2 g d2 H2 (is_not_None_true d2 N2)).
  cbn [fst]. intros H. inversion H as [Ht]. apply Hne.
  pose proof (RoundTrip.loads_dumps d1 W1) as L1.
  pose proof (RoundTrip.loads_dumps d2 W2) as L2.
  rewrite Ht in L1. congruence.
Qed.

Lemma call_tool_responses_differ_witness :
  fst (call_tool (u "get_mothergoose_api_endpoints") ∅
         (module_globals (VDict []) (VDict []) (VDict [])))
  <> fst (call_tool (u "get_mothergoose_celery_tasks") ∅
            (module_globals (VDict []) (VDict []) (VDict []))).
Proof.
  apply (call_tool_responses_differ _ _ _ ∅ ∅
           MOTHERGOOSE_API_ENDPOINTS MOTHERGOOSE_CELERY_TASKS).
  - vm_compute. reflexivity.
  - vm_compute. reflexivity.
  - intros H. discriminate H.
  - intros H. discriminate H.
  - vm_compute. reflexivity.
  - vm_compute. reflexivity.
  - intros H.
    apply (f_equal (fun v => match v with VList l => length l | _ => 0%nat end)) in H.
    vm_compute in H. discriminate H.
Defined.

(** X4. Whatever the dispatch table, [json.loads] reads the text that
    [call_tool] returns for a bound well-formed dataset back as that
    dataset. *)
Theorem call_tool_text_loads
  (g : globals) (n : pystr) (arguments : gmap pystr value) (d : value) :
  g_DISPATCH g !! n = Some d -> d <> VNone -> well_formed d = true ->
  List.map (fun b => Json.loads (text b)) (fst (call_tool n arguments g)) = [Some d].
Proof.
  intros Hd Hnn Wd.
  rewrite (call_tool_not_None n arguments g d Hd (is_not_None_true d Hnn)).
  cbn [fst List.map text]. now rewrite RoundTrip.loads_dumps.
Qed.

Lemma call_tool_text_loads_witness :
  List.map (fun b => Json.loads (text b))
    (fst (call_tool (u "ping") ∅
            {| g_TOOLS := [];
               g_DISPATCH := dict_literal [(u "ping", VDict [(u "ok", VBool true)])] |}))
  = [Some (VDict [(u "ok", VBool true)])].
Proof.
  apply (call_tool_text_loads _ (u "ping") ∅ (VDict [(u "ok", VBool true)])).
  - vm_compute. reflexivity.
  - intros H. discriminate H.
  - reflexivity.
Defined.

(** X5. Whatever the dispatch table, the text [call_tool] returns for a
    name without a binding, or bound to [None], is no JSON document:
    [json.loads] rejects it, whatever the name. *)
Theorem unknown_tool_text_not_json
  (g : globals) (n : pystr) (arguments : gmap pystr value) :
  g_DISPATCH g !! n = None \/ g_DISPATCH g !! n = Some VNone ->
  List.map (fun b => Json.loads (text b)) (fst (call_tool n arguments g)) = [None].
Proof.
  intros H. apply (call_tool_unknown_cases g n arguments) in H. rewrite H.
  unfold unknown_tool. cbn [List.map text].
  now rewrite EncoderFacts.loads_diagnostic.
Qed.

Lemma unknown_tool_text_not_json_witness :
  List.map (fun b => Json.loads (text b))
    (fst (call_tool (u "[1, 2]") ∅
            {| g_TOOLS := [];
               g_DISPATCH := dict_literal [(u "ping", VDict [(u "ok", VBool true)])] |}))
  = [None].
Proof.
  apply (unknown_tool_text_not_json _ (u "[1, 2]") ∅).
  left. vm_compute. reflexivity.
Defined.

(** X6. With the three constants of [data.cross_cutting] not [None], the
    names [list_tools] advertises are exactly the names [call_tool] serves
    a dataset for, rather than the unknown-tool diagnostic. *)
Theorem advertised_iff_served
  (SECRET_URI_SCHEMES DATABASE_SCHEMA ARCHITECTURE_OVERVIEW : value)
  (n : pystr) (arguments : gmap pystr value) :
  SECRET_URI_SCHEMES <> VNone ->
  DATABASE_SCHEMA <> VNone ->
  ARCHITECTURE_OVERVIEW <> VNone ->
  n ∈ List.map name
        (fst (list_tools
                (module_globals SECRET_URI_SCHEMES DATABASE_SCHEMA ARCHITECTURE_OVERVIEW)))
  <-> fst (call_tool n arguments
             (module_globals SECRET_URI_SCHEMES DATABASE_SCHEMA ARCHITECTURE_OVERVIEW))
      <> unknown_tool n.
Proof.
  intros HS HD HA. rewrite call_tool_unknown_cases.
  cbn [list_tools fst g_TOOLS g_DISPATCH module_globals].
  split.
  - intros Hn [Hnone|Hnone].
    + now apply dispatch_lookup_None in Hnone.
    + pose proof (dispatch_values SECRET_URI_SCHEMES DATABASE_SCHEMA ARCHITECTURE_OVERVIEW
                    is_not_None data_constants_not_None
                    (is_not_None_true _ HS) (is_not_None_true _ HD)
                    (is_not_None_true _ HA) n VNone Hnone) as H.
      discriminate H.
  - intros H. destruct (decide (n ∈ List.map name TOOLS)) as [Hn|Hn]; [exact Hn|].
    exfalso. apply H. left. now apply dispatch_lookup_None.
Qed.

Lemma advertised_iff_served_witness :
  u "get_fly_examples"
    ∈ List.map name (fst (list_tools (module_globals (VDict []) (VDict []) (VDict []))))
  <-> fst (call_tool (u "get_fly_examples") ∅
             (module_globals (VDict []) (VDict []) (VDict [])))
      <> unknown_tool (u "get_fly_examples").
Proof.
  apply (advertised_iff_served (VDict []) (VDict []) (VDict [])
           (u "get_fly_examples") ∅).
  - intros H. discriminate H.
  - intros H. discriminate H.
  - intros H. discriminate H.
Defined.

(** X7. Whatever the dispatch table, in a run of [call_tool] invocations
    every response is the one the same invocation gives on its own: no
    call changes what a later one returns. *)
Theorem call_tools_independent
  (calls : list (pystr * gmap pystr value)) (g : globals) :
  call_tools calls g
  = (List.map (fun c => fst (call_tool (fst c) (snd c) g)) calls, g).
Proof. apply call_tools_map. Qed.

(** X8. The import of [data.cross_cutting] is the only statement that
    keeps [server.py] from loading: with a module of that name that binds
    the three imported names added to the repository, every import
    statement succeeds. *)
Theorem load_server_with_cross_cutting (names : list pystr) :
  In (u "SECRET_URI_SCHEMES") names ->
  In (u "DATABASE_SCHEMA") names ->
  In (u "ARCHITECTURE_OVERVIEW") names ->
  load_server (installed ++ data_package ++ [(u "data.cross_cutting", names)]) = None.
Proof.
  intros H1 H2 H3. unfold load_server.
  change server_imports
    with (firstn 8 server_imports
            ++ [FromImport (u "data.cross_cutting")
                  [u "SECRET_URI_SCHEMES"; u "DATABASE_SCHEMA";
                   u "ARCHITECTURE_OVERVIEW"]]).
  rewrite exec_imports_app.
  replace (exec_imports (installed ++ data_package ++ [(u "data.cross_cutting", names)])
             (firstn 8 server_imports))
    with (@None load_error) by (vm_compute; reflexivity).
  cbn [exec_imports exec_import].
  replace (find_module (installed ++ data_package ++ [(u "data.cross_cutting", names)])
             (u "data.cross_cutting"))
    with (Some names) by (vm_compute; reflexivity).
  cbn [List.find].
  now rewrite !existsb_str_eqb.
Qed.

Lemma load_server_with_cross_cutting_witness :
  load_server
    (installed ++ data_package
       ++ [(u "data.cross_cutting",
            [u "SECRET_URI_SCHEMES"; u "DATABASE_SCHEMA"; u "ARCHITECTURE_OVERVIEW"])])
  = None.
Proof.
  apply (load_server_with_cross_cutting
           [u "SECRET_URI_SCHEMES"; u "DATABASE_SCHEMA"; u "ARCHITECTURE_OVERVIEW"]).
  - simpl. tauto.
  - simpl. tauto.
  - simpl. tauto.
Defined.

(** X10. The encoder writes a value nested [level] containers deep as it
    writes it at the top, with [2 * level] more spaces at the start of
    every line after the first. *)
Theorem nested_value_reindented (level : nat) (v : value) :
  Json.iterencode level v = reindent (2 * level) (Json.dumps v).
Proof.
  unfold Json.dumps. rewrite <- EncoderFacts.iterencode_reindent.
  now rewrite Nat.add_0_r.
Qed.
